(** * Search adapters of the research agent (src/tools.py)

    A shallow embedding of [extract_domain], [search_tavily], [search_exa]
    and [search_with_urls], together with the part of CPython's
    [urllib.parse.urlsplit] that [extract_domain] relies on, and the
    properties of the specification's section 8 stated over them.

    Conventions.
    - A Python [str] is a [string]; one [ascii] stands for one character
      (code points 0..255).  Characters at or above 128 are the non-ASCII
      ones.
    - A Python [int] is a [Z]; loop counters produced by [enumerate] are
      [nat] and are printed in decimal.
    - Code that logs, calls a backend or raises lives in the monad [M]:
      a trace of the events emitted, and either the exception that
      escaped or the value returned. *)

From Stdlib Require Import String Ascii List ZArith Lia Bool Arith.
From Stdlib Require Import Decimal DecimalString.
Import ListNotations.

Local Open Scope list_scope.
Local Open Scope string_scope.

(* ================================================================= *)
(** ** Python string operations used by the program *)

Module PyStr.

(** The line feed written ["\n"] in the source. *)
Definition LF : string := String (ascii_of_nat 10) EmptyString.

(** [s[:n]] *)
Fixpoint take (n : nat) (s : string) : string :=
  match n, s with
  | S n', String c s' => String c (take n' s')
  | _, _ => EmptyString
  end.

(** [s[n:]] *)
Fixpoint drop (n : nat) (s : string) : string :=
  match n, s with
  | S n', String _ s' => drop n' s'
  | _, _ => s
  end.

(** [s[i:j]] for non-negative [i], [j] *)
Definition slice (s : string) (i j : nat) : string := take (j - i) (drop i s).

(** [s.startswith(p)] *)
Definition startswith (s p : string) : bool := String.prefix p s.

(** [sub in s] *)
Fixpoint contains (sub s : string) : bool :=
  match s with
  | EmptyString => String.prefix sub EmptyString
  | String _ s' => String.prefix sub s || contains sub s'
  end.

(** [s.find(c)] for a one-character [c]; [None] stands for [-1]. *)
Fixpoint find (c : ascii) (s : string) : option nat :=
  match s with
  | EmptyString => None
  | String d s' => if Ascii.eqb d c then Some 0 else option_map S (find c s')
  end.

(** [s.find(c, start)] *)
Definition find_from (c : ascii) (s : string) (start : nat) : option nat :=
  option_map (Nat.add start) (find c (drop start s)).

(** [c in s] for a one-character [c] *)
Definition has (c : ascii) (s : string) : bool :=
  match find c s with Some _ => true | None => false end.

(** [s.lstrip(chars)], the set [chars] given by its membership test *)
Fixpoint lstrip (chars : ascii -> bool) (s : string) : string :=
  match s with
  | EmptyString => EmptyString
  | String c s' => if chars c then lstrip chars s' else s
  end.

(** [s.replace(c, "")] for a one-character [c] *)
Fixpoint remove (c : ascii) (s : string) : string :=
  match s with
  | EmptyString => EmptyString
  | String d s' => if Ascii.eqb d c then remove c s' else String d (remove c s')
  end.

(** [all(p(c) for c in s)] *)
Fixpoint all (p : ascii -> bool) (s : string) : bool :=
  match s with
  | EmptyString => true
  | String c s' => p c && all p s'
  end.

Definition code (c : ascii) : nat := nat_of_ascii c.

Definition in_range (lo hi : nat) (c : ascii) : bool :=
  (lo <=? code c)%nat && (code c <=? hi)%nat.

Definition is_upper (c : ascii) : bool := in_range 65 90 c.
Definition is_lower (c : ascii) : bool := in_range 97 122 c.
Definition is_digit (c : ascii) : bool := in_range 48 57 c.

(** [c.isascii()] *)
Definition isascii_char (c : ascii) : bool := (code c <? 128)%nat.

(** [s.isascii()] *)
Definition isascii (s : string) : bool := all isascii_char s.

(** [c.isascii() and c.isalpha()] *)
Definition is_ascii_alpha (c : ascii) : bool := is_upper c || is_lower c.

(** [c.lower()] on the characters a scheme may hold (ASCII) *)
Definition lower_char (c : ascii) : ascii :=
  if is_upper c then ascii_of_nat (code c + 32) else c.

Fixpoint lower (s : string) : string :=
  match s with
  | EmptyString => EmptyString
  | String c s' => String (lower_char c) (lower s')
  end.

(** [str(i)] for a non-negative [int] *)
Definition of_nat (n : nat) : string := NilZero.string_of_uint (Nat.to_uint n).

(** The truth value of a [str]: non-empty. *)
Definition truthy (s : string) : bool :=
  match s with EmptyString => false | String _ _ => true end.

End PyStr.

(* ================================================================= *)
(** ** Exceptions *)

(** A raised exception: its class name and the text [str(e)] gives.
    [Exception] stands for an instance of Python's [Exception], which is
    what the adapters' [except Exception] handles; [BaseException] for
    an exception whose class is not under [Exception]:
    [KeyboardInterrupt], [SystemExit], [GeneratorExit]. *)
Inductive exn : Type :=
| Exception (cls : string) (msg : string)
| BaseException (cls : string) (msg : string).

Definition str_exn (e : exn) : string :=
  match e with Exception _ msg | BaseException _ msg => msg end.

(** [isinstance(e, Exception)] *)
Definition is_Exception (e : exn) : bool :=
  match e with Exception _ _ => true | BaseException _ _ => false end.

Definition ValueError (msg : string) : exn := Exception "ValueError" msg.

(* ================================================================= *)
(** ** urllib.parse *)

Module UrlLib.
Import PyStr.

(** The two components [extract_domain] can observe. *)
Record ParseResult : Type := mkParseResult {
  scheme : string;
  netloc : string
}.

(** [scheme_chars]: letters, digits and ["+-."] *)
Definition scheme_char (c : ascii) : bool :=
  is_lower c || is_upper c || is_digit c
  || Ascii.eqb c "+" || Ascii.eqb c "-" || Ascii.eqb c ".".

(** [_WHATWG_C0_CONTROL_OR_SPACE]: code points 0 to 32 *)
Definition c0_control_or_space (c : ascii) : bool := (code c <=? 32)%nat.

(** [_UNSAFE_URL_BYTES_TO_REMOVE]: tab, carriage return, line feed *)
Definition unsafe_url_bytes : list ascii :=
  [ascii_of_nat 9; ascii_of_nat 13; ascii_of_nat 10].

(** [_splitnetloc(url, start)] *)
Definition splitnetloc (url : string) (start : nat) : string * string :=
  let delim :=
    fold_left
      (fun delim c =>
         match find_from c url start with
         | Some wdelim => Nat.min delim wdelim
         | None => delim
         end)
      ["/"; "?"; "#"]%char (String.length url) in
  (slice url start delim, drop delim url).

Section Parse.

(** A netloc that holds both brackets is validated as an IP literal with
    the [ipaddress] module ([_check_bracketed_netloc], or
    [_check_bracketed_host] on the bracketed part, by release), and
    [_checknetloc] normalises a non-ASCII netloc with [unicodedata];
    both are taken as given: the exception they raise on the netloc, if
    any. *)
Variable check_bracketed_netloc : string -> option exn.
Variable checknetloc_unicode : string -> option exn.

(** [_checknetloc(netloc)] *)
Definition checknetloc (netloc : string) : option exn :=
  if negb (truthy netloc) || isascii netloc then None
  else checknetloc_unicode netloc.

(** [urlsplit(url)], with the default [scheme=''], up to the netloc. *)
Definition urlsplit (url : string) : exn + ParseResult :=
  let url := lstrip c0_control_or_space url in
  let url := fold_left (fun u b => remove b u) unsafe_url_bytes url in
  let '(scheme, url) :=
    match find ":"%char url, url with
    | Some (S i'), String c0 _ =>
        let i := S i' in
        if is_ascii_alpha c0 && all scheme_char (take i url)
        then (lower (take i url), drop (i + 1) url)
        else (EmptyString, url)
    | _, _ => (EmptyString, url)
    end in
  let step :=
    if String.eqb (take 2 url) "//" then
      let '(netloc, rest) := splitnetloc url 2 in
      if (has "[" netloc && negb (has "]" netloc))
         || (has "]" netloc && negb (has "[" netloc))
      then inl (ValueError "Invalid IPv6 URL")
      else if has "[" netloc && has "]" netloc
      then match check_bracketed_netloc netloc with
           | Some e => inl e
           | None => inr netloc
           end
      else inr netloc
    else inr EmptyString in
  match step with
  | inl e => inl e
  | inr netloc =>
      match checknetloc netloc with
      | Some e => inl e
      | None => inr (mkParseResult scheme netloc)
      end
  end.

(** [urlparse(url)]: [urlsplit] and a split of the path's parameters,
    which leaves scheme and netloc as they are. *)
Definition urlparse (url : string) : exn + ParseResult := urlsplit url.

End Parse.

End UrlLib.

(* ================================================================= *)
(** ** The world the adapters run in *)

(** A result of the structured-search backend as its interface types
    it: [{title, url, content}], three texts.  A reply that lacks one of
    the fields, or holds [None] in one, is outside this type. *)
Record tavily_result : Type := mkTavilyResult {
  title : string;
  url : string;
  content : string
}.

(** The reply of [TavilyClient.search]: the optional [answer] and the
    [results] list. *)
Record tavily_response : Type := mkTavilyResponse {
  answer : option string;
  results : list tavily_result
}.

(** The keyword arguments of [TavilyClient.search]; [None] for a keyword
    the call site does not pass. *)
Record tavily_request : Type := mkTavilyRequest {
  tq_query : string;
  tq_search_depth : option string;
  tq_max_results : Z;
  tq_include_answer : option bool;
  tq_include_domains : option (list string)
}.

(** A result of the neural-search backend as its interface types it:
    [title], [url], [text], three texts. *)
Record exa_result : Type := mkExaResult {
  exa_title : string;
  exa_url : string;
  exa_text : string
}.

Record exa_response : Type := mkExaResponse {
  exa_results : list exa_result
}.

(** The keyword arguments of [Exa.search_and_contents];
    [eq_text_max_characters] is the [text={"max_characters": ...}] cap. *)
Record exa_request : Type := mkExaRequest {
  eq_query : string;
  eq_num_results : Z;
  eq_use_autoprompt : bool;
  eq_text_max_characters : Z
}.

(** What the program takes from outside: the process environment, the two
    client libraries (constructing the client with an API key and calling
    its search method either raises or returns a reply), Python's [repr]
    of a list of [str], and the two validators of [urllib.parse]. *)
Record World : Type := mkWorld {
  getenv : string -> option string;
  tavily_search : option string -> tavily_request -> exn + tavily_response;
  exa_search_and_contents : option string -> exa_request -> exn + exa_response;
  repr_list : list string -> string;
  check_bracketed_netloc : string -> option exn;
  checknetloc_unicode : string -> option exn
}.

(** Things the program does that an observer can see. *)
Inductive event : Type :=
| LogInfo (msg : string)
| LogError (msg : string)
| TavilyCall (api_key : option string) (req : tavily_request)
| ExaCall (api_key : option string) (req : exa_request).

(* ================================================================= *)
(** ** The monad of traces and exceptions *)

Definition M (A : Type) : Type := list event * (exn + A).

Definition ret {A} (a : A) : M A := ([], inr a).

Definition raise {A} (e : exn) : M A := ([], inl e).

Definition bind {A B} (m : M A) (k : A -> M B) : M B :=
  match m with
  | (t, inl e) => (t, inl e)
  | (t, inr a) => let '(t', r) := k a in ((t ++ t')%list, r)
  end.

Definition emit (ev : event) : M unit := ([ev], inr tt).

(** [try: body  except Exception as e: handler(e)]: an exception that
    is not an instance of [Exception] passes through the handler. *)
Definition try_except {A} (body : M A) (handler : exn -> M A) : M A :=
  match body with
  | (t, inl e) =>
      if is_Exception e
      then let '(t', r) := handler e in ((t ++ t')%list, r)
      else (t, inl e)
  | (t, inr a) => (t, inr a)
  end.

Definition trace {A} (m : M A) : list event := fst m.
Definition outcome {A} (m : M A) : exn + A := snd m.

Declare Scope py_scope.
Delimit Scope py_scope with py.
Notation "x <- m ;; k" := (bind m (fun x => k))
  (at level 61, m at next level, right associativity) : py_scope.
Notation "m ;; k" := (bind m (fun _ => k))
  (at level 61, right associativity) : py_scope.

(* ================================================================= *)
(** ** src/tools.py *)

Module Tools.
Import PyStr.
Local Open Scope py_scope.

Section Adapters.

Variable w : World.

(** [urlparse] of the standard library, in this world. *)
Definition urlparse : string -> exn + UrlLib.ParseResult :=
  UrlLib.urlparse (check_bracketed_netloc w) (checknetloc_unicode w).

(** [extract_domain(url)].  The parameter [url] is rebound before the
    parse, so the handler returns the rebound value. *)
Definition extract_domain (url : string) : string :=
  let url := if negb (contains "://" url) then "http://" ++ url else url in
  match urlparse url with
  | inr parsed =>
      let domain := UrlLib.netloc parsed in
      if startswith domain "www." then drop 4 domain else domain
  | inl _ => url
  end.

Definition log_info (msg : string) : M unit := emit (LogInfo msg).
Definition log_error (msg : string) : M unit := emit (LogError msg).

(** [TavilyClient(api_key=...)] followed by [.search(...)] with the
    keyword arguments [req]: the two statements taken together as one
    call of the client library.  The event records that the library was
    entered with that key and that request; an exception of the
    constructor is an exception of this call. *)
Definition TavilyClient_search (api_key : option string) (req : tavily_request)
  : M tavily_response :=
  emit (TavilyCall api_key req) ;; (([], tavily_search w api_key req) : M _).

(** [Exa(api_key=...)] followed by [.search_and_contents(...)] with the
    keyword arguments [req], taken together in the same way. *)
Definition Exa_search_and_contents (api_key : option string) (req : exa_request)
  : M exa_response :=
  emit (ExaCall api_key req) ;; (([], exa_search_and_contents w api_key req) : M _).

(** [enumerate(l, start)] *)
Fixpoint enumerate {A} (l : list A) (start : nat) : list (nat * A) :=
  match l with
  | [] => []
  | x :: l' => (start, x) :: enumerate l' (S start)
  end.

(** The text one iteration of [search_tavily]'s loop appends. *)
Definition tavily_entry (i : nat) (r : tavily_result) : string :=
  of_nat i ++ ". " ++ title r ++ " - " ++ url r ++ LF
    ++ "Snippet: " ++ take 200 (content r) ++ LF.

(** The request [search_tavily] sends. *)
Definition tavily_request_of (query search_depth : string) (max_results : Z)
  : tavily_request :=
  {| tq_query := query;
     tq_search_depth := Some search_depth;
     tq_max_results := max_results;
     tq_include_answer := Some true;
     tq_include_domains := None |}.

(** [search_tavily(query, search_depth, max_results)] *)
Definition search_tavily (query search_depth : string) (max_results : Z)
  : M string :=
  log_info ("Tavily searching: " ++ query) ;;
  try_except
    (response <- TavilyClient_search (getenv w "TAVILY_API_KEY")
                   (tavily_request_of query search_depth max_results) ;;
     match results response with
     | [] => ret ("Notice: No Tavily results for '" ++ query ++ "'.")
     | _ :: _ =>
         let formatted := "**Tavily Data:**" ++ LF in
         let formatted :=
           match answer response with
           | Some a =>
               if truthy a
               then formatted ++ "Quick Summary: " ++ a ++ LF
               else formatted
           | None => formatted
           end in
         let formatted :=
           fold_left (fun acc ir => acc ++ tavily_entry (fst ir) (snd ir))
                     (enumerate (results response) 1) formatted in
         ret formatted
     end)
    (fun e =>
       log_error ("Tavily Error: " ++ str_exn e) ;;
       ret ("Error: Tavily failed (" ++ str_exn e ++ ")")).

(** The text one iteration of [search_exa]'s loop appends. *)
Definition exa_entry (i : nat) (r : exa_result) : string :=
  of_nat i ++ ". " ++ exa_title r ++ " - " ++ exa_url r ++ LF
    ++ "Text: " ++ take 200 (exa_text r) ++ "..." ++ LF.

(** The request [search_exa] sends. *)
Definition exa_request_of (query : string) (num_results : Z)
           (use_autoprompt : bool) : exa_request :=
  {| eq_query := query;
     eq_num_results := num_results;
     eq_use_autoprompt := use_autoprompt;
     eq_text_max_characters := 800 |}.

(** [search_exa(query, num_results, use_autoprompt)] *)
Definition search_exa (query : string) (num_results : Z) (use_autoprompt : bool)
  : M string :=
  log_info ("Exa searching: " ++ query) ;;
  try_except
    (response <- Exa_search_and_contents (getenv w "EXA_API_KEY")
                   (exa_request_of query num_results use_autoprompt) ;;
     match exa_results response with
     | [] => ret ("Notice: No Exa results for '" ++ query ++ "'.")
     | _ :: _ =>
         let formatted := "**Exa Neural Data:**" ++ LF in
         let formatted :=
           fold_left (fun acc ir => acc ++ exa_entry (fst ir) (snd ir))
                     (enumerate (exa_results response) 1) formatted in
         ret formatted
     end)
    (fun e =>
       log_error ("Exa Error: " ++ str_exn e) ;;
       ret ("Error: Exa failed (" ++ str_exn e ++ ")")).

(** The text one iteration of [search_with_urls]'s loop appends. *)
Definition urls_entry (r : tavily_result) : string :=
  "- " ++ title r ++ " (" ++ url r ++ "): " ++ take 200 (content r) ++ LF.

(** The request [search_with_urls] sends. *)
Definition urls_request_of (query : string) (domains : list string)
           (max_results : Z) : tavily_request :=
  {| tq_query := query;
     tq_search_depth := None;
     tq_max_results := max_results;
     tq_include_answer := None;
     tq_include_domains := Some domains |}.

(** [search_with_urls(query, urls, use_tool, max_results)] *)
Definition search_with_urls (query : string) (urls : list string)
           (use_tool : string) (max_results : Z) : M string :=
  log_info ("Specific URL search in: " ++ repr_list w urls) ;;
  let domains := map extract_domain urls in
  try_except
    (response <- TavilyClient_search (getenv w "TAVILY_API_KEY")
                   (urls_request_of query domains max_results) ;;
     match results response with
     | [] => ret ("Notice: No data found within domains "
                    ++ repr_list w domains ++ ".")
     | _ :: _ =>
         let formatted := "**Targeted Domain Results:**" ++ LF in
         let formatted :=
           fold_left (fun acc r => acc ++ urls_entry r)
                     (results response) formatted in
         ret formatted
     end)
    (fun e =>
       log_error ("Domain search error: " ++ str_exn e) ;;
       ret ("Error: Domain search failed (" ++ str_exn e ++ ")")).

End Adapters.

(** The tool registry: [search_tavily_tool], [search_exa_tool] and
    [search_with_urls_tool] wrap the three functions; a call names one of
    them and gives its arguments. *)
Inductive tool_call : Type :=
| Call_search_tavily (query search_depth : string) (max_results : Z)
| Call_search_exa (query : string) (num_results : Z) (use_autoprompt : bool)
| Call_search_with_urls (query : string) (urls : list string)
                          (use_tool : string) (max_results : Z).

Definition invoke (w : World) (c : tool_call) : M string :=
  match c with
  | Call_search_tavily q d n => search_tavily w q d n
  | Call_search_exa q n a => search_exa w q n a
  | Call_search_with_urls q us t n => search_with_urls w q us t n
  end.

End Tools.

(* ================================================================= *)
(** ** Observations on a run *)

Import PyStr Tools.

(** The backend's answer to the one request an adapter call sends: the
    exception raised, or the number of results in the reply. *)
Definition backend_reply (w : World) (c : tool_call) : exn + nat :=
  match c with
  | Call_search_tavily q d n =>
      match tavily_search w (getenv w "TAVILY_API_KEY") (tavily_request_of q d n) with
      | inl e => inl e
      | inr resp => inr (List.length (results resp))
      end
  | Call_search_exa q n a =>
      match exa_search_and_contents w (getenv w "EXA_API_KEY") (exa_request_of q n a) with
      | inl e => inl e
      | inr resp => inr (List.length (exa_results resp))
      end
  | Call_search_with_urls q us _ n =>
      match tavily_search w (getenv w "TAVILY_API_KEY")
              (urls_request_of q (map (extract_domain w) us) n) with
      | inl e => inl e
      | inr resp => inr (List.length (results resp))
      end
  end.

(** The text each adapter returns when its backend call raised [e]. *)
Definition error_text (c : tool_call) (e : exn) : string :=
  match c with
  | Call_search_tavily _ _ _ => "Error: Tavily failed (" ++ str_exn e ++ ")"
  | Call_search_exa _ _ _ => "Error: Exa failed (" ++ str_exn e ++ ")"
  | Call_search_with_urls _ _ _ _ => "Error: Domain search failed (" ++ str_exn e ++ ")"
  end.

(** The notice each adapter returns on an empty result list, and the
    phrase the notice is recognised by. *)
Definition notice_text (w : World) (c : tool_call) : string :=
  match c with
  | Call_search_tavily q _ _ => "Notice: No Tavily results for '" ++ q ++ "'."
  | Call_search_exa q _ _ => "Notice: No Exa results for '" ++ q ++ "'."
  | Call_search_with_urls _ us _ _ =>
      "Notice: No data found within domains "
        ++ repr_list w (map (extract_domain w) us) ++ "."
  end.

Definition notice_phrase (c : tool_call) : string :=
  match c with
  | Call_search_tavily _ _ _ => "No Tavily results"
  | Call_search_exa _ _ _ => "No Exa results"
  | Call_search_with_urls _ _ _ _ => "No data found"
  end.

(** What [search_tavily] appends for the reply's [answer]: the summary
    line when the answer is a non-empty text, nothing otherwise. *)
Definition summary_text (a : option string) : string :=
  match a with
  | Some t => if truthy t then "Quick Summary: " ++ t ++ LF else EmptyString
  | None => EmptyString
  end.

(** Concatenation of a list of pieces of text. *)
Definition join (l : list string) : string := fold_right String.append EmptyString l.

Definition is_backend_call (ev : event) : bool :=
  match ev with
  | TavilyCall _ _ | ExaCall _ _ => true
  | LogInfo _ | LogError _ => false
  end.

(** The backend calls of a trace, in order. *)
Definition backend_calls (t : list event) : list event := filter is_backend_call t.

(** The lines of a text: the pieces between line feeds. *)
Fixpoint lines_from (cur : string) (s : string) : list string :=
  match s with
  | EmptyString => [cur]
  | String c s' =>
      if Ascii.eqb c (ascii_of_nat 10) then cur :: lines_from EmptyString s'
      else lines_from (cur ++ String c EmptyString) s'
  end.

Definition lines (s : string) : list string := lines_from EmptyString s.

(** A line of the form [<digits>. ...], as a numbered entry starts. *)
Definition is_numbered_line (l : string) : bool :=
  let rest := lstrip is_digit l in
  negb (String.length rest =? String.length l)%nat && String.prefix ". " rest.

(** The number of lines of a text that satisfy [p]. *)
Definition count_lines (p : string -> bool) (out : string) : nat :=
  List.length (filter p (lines out)).

(** The number of numbered entries a formatted text shows. *)
Definition numbered_entries (out : string) : nat := count_lines is_numbered_line out.

(** The lines of a text that begin with ["Quick Summary:"]. *)
Definition summary_lines (out : string) : nat :=
  count_lines (String.prefix "Quick Summary:") out.

(** The reply's [answer] is a non-empty text. *)
Definition has_answer (a : option string) : bool :=
  match a with Some t => truthy t | None => false end.

(** A text without a line feed, and a result whose fields are such. *)
Definition single_line (s : string) : bool := negb (has (ascii_of_nat 10) s).

Definition single_line_result (r : tavily_result) : bool :=
  single_line (title r) && single_line (url r) && single_line (content r).

Definition single_line_answer (a : option string) : bool :=
  match a with Some t => single_line t | None => true end.

(** Characters of a host name that [urlsplit] leaves in place: ASCII,
    neither removed (tab, carriage return, line feed), nor ending the
    netloc (slash, question mark, hash), nor a bracket. *)
Definition host_char (c : ascii) : bool :=
  isascii_char c
  && negb (existsb (Ascii.eqb c) UrlLib.unsafe_url_bytes)
  && negb (existsb (Ascii.eqb c) ["/"; "?"; "#"; "["; "]"]%char).

(* ================================================================= *)
(** ** Example worlds *)

(** No credentials, and both backends refuse the call.  [repr_list]
    prints every item between single quotes, as [repr] does for text
    that holds no quote and nothing to escape. *)
Definition offline_world : World :=
  {| getenv := fun _ => None;
     tavily_search := fun _ _ => inl (Exception "MissingAPIKeyError" "No API key provided");
     exa_search_and_contents := fun _ _ => inl (Exception "ValueError" "API key must be provided");
     repr_list := fun l => "[" ++ String.concat ", " (map (fun s => "'" ++ s ++ "'") l) ++ "]";
     check_bracketed_netloc := fun _ => None;
     checknetloc_unicode := fun _ => None |}.

(** The process is interrupted while either backend call is under way. *)
Definition interrupted_world : World :=
  {| getenv := fun _ => Some "key";
     tavily_search := fun _ _ => inl (BaseException "KeyboardInterrupt" "");
     exa_search_and_contents := fun _ _ => inl (BaseException "KeyboardInterrupt" "");
     repr_list := repr_list offline_world;
     check_bracketed_netloc := fun _ => None;
     checknetloc_unicode := fun _ => None |}.

(** Both backends answer with an empty result list. *)
Definition empty_world : World :=
  {| getenv := fun _ => Some "key";
     tavily_search := fun _ _ => inr {| answer := None; results := [] |};
     exa_search_and_contents := fun _ _ => inr {| exa_results := [] |};
     repr_list := repr_list offline_world;
     check_bracketed_netloc := fun _ => None;
     checknetloc_unicode := fun _ => None |}.

Definition result_a : tavily_result :=
  {| title := "Alpha"; url := "https://a.example/1"; content := "first" |}.

Definition result_b : tavily_result :=
  {| title := "Beta"; url := "https://b.example/2"; content := "second" |}.

Definition exa_result_a : exa_result :=
  {| exa_title := "Alpha"; exa_url := "https://a.example/1"; exa_text := "first" |}.

(** The structured-search backend answers every request with an answer
    and the same two results, whatever ceiling the request carries; the
    neural backend with one result. *)
Definition two_results_world : World :=
  {| getenv := fun _ => Some "key";
     tavily_search := fun _ _ =>
       inr {| answer := Some "Forty-two."; results := [result_a; result_b] |};
     exa_search_and_contents := fun _ _ => inr {| exa_results := [exa_result_a] |};
     repr_list := repr_list offline_world;
     check_bracketed_netloc := fun _ => None;
     checknetloc_unicode := fun _ => None |}.

(** [s * n] *)
Fixpoint replicate (n : nat) (s : string) : string :=
  match n with
  | O => EmptyString
  | S n' => s ++ replicate n' s
  end.

(** A result whose content is 300 characters long. *)
Definition long_result : tavily_result :=
  {| title := "Long"; url := "https://l.example/3";
     content := replicate 30 "0123456789" |}.

Definition long_exa_result : exa_result :=
  {| exa_title := "Long"; exa_url := "https://l.example/3";
     exa_text := replicate 30 "0123456789" |}.

(** Both backends answer with that one long result. *)
Definition long_world : World :=
  {| getenv := fun _ => Some "key";
     tavily_search := fun _ _ => inr {| answer := None; results := [long_result] |};
     exa_search_and_contents := fun _ _ => inr {| exa_results := [long_exa_result] |};
     repr_list := repr_list offline_world;
     check_bracketed_netloc := fun _ => None;
     checknetloc_unicode := fun _ => None |}.

(* ================================================================= *)
(** ** Shapes of URLs and of runs *)

(** Characters that stay in a netloc: ASCII, neither removed by
    [urlsplit] (tab, carriage return, line feed) nor ending the netloc
    (slash, question mark, hash).  Brackets are among them. *)
Definition netloc_char (c : ascii) : bool :=
  isascii_char c
  && negb (existsb (Ascii.eqb c) UrlLib.unsafe_url_bytes)
  && negb (existsb (Ascii.eqb c) ["/"; "?"; "#"]%char).

(** A text [urlsplit] takes for a scheme: a letter first, [scheme_chars]
    throughout. *)
Definition scheme_ok (s : string) : bool :=
  match s with
  | EmptyString => false
  | String c _ => is_ascii_alpha c && all UrlLib.scheme_char s
  end.

(** What may follow the netloc: nothing, or a path, query or fragment. *)
Definition tail_ok (t : string) : bool :=
  match t with
  | EmptyString => true
  | String d _ => existsb (Ascii.eqb d) ["/"; "?"; "#"]%char
  end.

(** The last step of [extract_domain]:
    [domain[4:] if domain.startswith('www.') else domain]. *)
Definition strip_www (domain : string) : string :=
  if startswith domain "www." then drop 4 domain else domain.

(** A text without its tabs, carriage returns and line feeds, as
    [urlsplit] goes on with it. *)
Definition without_unsafe (s : string) : string :=
  fold_left (fun u b => remove b u) UrlLib.unsafe_url_bytes s.

(** The backend call each adapter call is written to make. *)
Definition expected_call (w : World) (c : tool_call) : event :=
  match c with
  | Call_search_tavily q d n =>
      TavilyCall (getenv w "TAVILY_API_KEY") (tavily_request_of q d n)
  | Call_search_exa q n a =>
      ExaCall (getenv w "EXA_API_KEY") (exa_request_of q n a)
  | Call_search_with_urls q us _ n =>
      TavilyCall (getenv w "TAVILY_API_KEY")
                 (urls_request_of q (map (extract_domain w) us) n)
  end.

(** The line each adapter logs before its backend call, and the prefix
    of the line it logs when the call raised. *)
Definition info_line (w : World) (c : tool_call) : string :=
  match c with
  | Call_search_tavily q _ _ => "Tavily searching: " ++ q
  | Call_search_exa q _ _ => "Exa searching: " ++ q
  | Call_search_with_urls _ us _ _ => "Specific URL search in: " ++ repr_list w us
  end.

Definition error_line_prefix (c : tool_call) : string :=
  match c with
  | Call_search_tavily _ _ _ => "Tavily Error: "
  | Call_search_exa _ _ _ => "Exa Error: "
  | Call_search_with_urls _ _ _ _ => "Domain search error: "
  end.

(** The sum of a list of numbers. *)
Definition total (l : list nat) : nat := fold_right Nat.add 0 l.

(* ================================================================= *)
(** ** Facts about the string operations *)

Lemma length_take (n : nat) (s : string) : String.length (take n s) <= n.
Proof.
  revert s; induction n as [|n IH]; intros [|c s]; simpl; try lia.
  specialize (IH s); lia.
Qed.

Lemma take_is_prefix (n : nat) (s : string) : String.prefix (take n s) s = true.
Proof.
  revert s; induction n as [|n IH]; intros [|c s]; simpl; try reflexivity.
  destruct (ascii_dec c c) as [_|ne]; [apply IH | now elim ne].
Qed.

Lemma take_length (s : string) : take (String.length s) s = s.
Proof. induction s as [|c s IH]; simpl; [reflexivity | now rewrite IH]. Qed.

Lemma take_short (n : nat) (s : string) :
  String.length s <= n -> take n s = s.
Proof.
  revert s; induction n as [|n IH]; intros [|c s]; simpl; intros H;
    try reflexivity; try lia.
  f_equal; apply IH; lia.
Qed.

Lemma drop_length (s : string) : drop (String.length s) s = EmptyString.
Proof. induction s as [|c s IH]; simpl; [reflexivity | exact IH]. Qed.

Lemma append_assoc (a b c : string) : (a ++ b) ++ c = a ++ (b ++ c).
Proof. induction a as [|x a IH]; simpl; [reflexivity | now rewrite IH]. Qed.

Lemma append_empty_r (a : string) : a ++ EmptyString = a.
Proof. induction a as [|x a IH]; simpl; [reflexivity | now rewrite IH]. Qed.

Lemma prefix_append (p s : string) : String.prefix p (p ++ s) = true.
Proof.
  induction p as [|c p IH]; simpl; [now destruct s |].
  destruct (ascii_dec c c) as [_|ne]; [exact IH | now elim ne].
Qed.

Lemma contains_here (sub s : string) :
  String.prefix sub s = true -> contains sub s = true.
Proof. destruct s; simpl; intros H; rewrite H; reflexivity. Qed.

Lemma contains_append (sub a b : string) :
  contains sub (a ++ sub ++ b) = true.
Proof.
  induction a as [|c a IH]; simpl.
  - apply contains_here, prefix_append.
  - rewrite IH; apply orb_true_r.
Qed.

Lemma fold_left_append {A} (f : A -> string) (l : list A) (init : string) :
  fold_left (fun acc x => acc ++ f x) l init = init ++ join (map f l).
Proof.
  revert init; induction l as [|x l IH]; intros init; simpl.
  - now rewrite append_empty_r.
  - rewrite IH, append_assoc; reflexivity.
Qed.

Lemma enumerate_length {A} (l : list A) (start : nat) :
  List.length (enumerate l start) = List.length l.
Proof. revert start; induction l; simpl; intros; [reflexivity | now rewrite IHl]. Qed.

Lemma enumerate_fst {A} (l : list A) (start : nat) :
  map fst (enumerate l start) = seq start (List.length l).
Proof. revert start; induction l; simpl; intros; [reflexivity | now rewrite IHl]. Qed.

Lemma enumerate_snd {A} (l : list A) (start : nat) :
  map snd (enumerate l start) = l.
Proof. revert start; induction l; simpl; intros; [reflexivity | now rewrite IHl]. Qed.

(* ================================================================= *)
(** ** The three runs of each adapter *)

Section Runs.

Variable w : World.

Ltac run_adapter H :=
  unfold search_tavily, search_exa, search_with_urls,
         TavilyClient_search, Exa_search_and_contents,
         log_info, log_error, try_except, bind, emit, ret;
  cbn [fst snd app]; rewrite H; cbn [fst snd app].

Lemma search_tavily_raise (q d : string) (n : Z) (e : exn) :
  tavily_search w (getenv w "TAVILY_API_KEY") (tavily_request_of q d n) = inl e ->
  search_tavily w q d n =
    if is_Exception e
    then ([LogInfo ("Tavily searching: " ++ q);
           TavilyCall (getenv w "TAVILY_API_KEY") (tavily_request_of q d n);
           LogError ("Tavily Error: " ++ str_exn e)],
          inr ("Error: Tavily failed (" ++ str_exn e ++ ")"))
    else ([LogInfo ("Tavily searching: " ++ q);
           TavilyCall (getenv w "TAVILY_API_KEY") (tavily_request_of q d n)],
          inl e).
Proof. intros H; run_adapter H; destruct (is_Exception e); reflexivity. Qed.

Lemma search_tavily_reply (q d : string) (n : Z) (resp : tavily_response) :
  tavily_search w (getenv w "TAVILY_API_KEY") (tavily_request_of q d n) = inr resp ->
  search_tavily w q d n =
    ([LogInfo ("Tavily searching: " ++ q);
      TavilyCall (getenv w "TAVILY_API_KEY") (tavily_request_of q d n)],
     inr (match results resp with
          | [] => "Notice: No Tavily results for '" ++ q ++ "'."
          | _ :: _ =>
              ("**Tavily Data:**" ++ LF) ++ summary_text (answer resp)
                ++ join (map (fun ir => tavily_entry (fst ir) (snd ir))
                             (enumerate (results resp) 1))
          end)).
Proof.
  intros H; run_adapter H.
  destruct (results resp) as [|r rs] eqn:E; [reflexivity |].
  cbn [fst snd app]. do 2 f_equal.
  rewrite fold_left_append.
  destruct (answer resp) as [a|]; unfold summary_text.
  - destruct (truthy a).
    + now rewrite !append_assoc.
    + reflexivity.
  - reflexivity.
Qed.

Lemma search_exa_raise (q : string) (n : Z) (a : bool) (e : exn) :
  exa_search_and_contents w (getenv w "EXA_API_KEY") (exa_request_of q n a) = inl e ->
  search_exa w q n a =
    if is_Exception e
    then ([LogInfo ("Exa searching: " ++ q);
           ExaCall (getenv w "EXA_API_KEY") (exa_request_of q n a);
           LogError ("Exa Error: " ++ str_exn e)],
          inr ("Error: Exa failed (" ++ str_exn e ++ ")"))
    else ([LogInfo ("Exa searching: " ++ q);
           ExaCall (getenv w "EXA_API_KEY") (exa_request_of q n a)],
          inl e).
Proof. intros H; run_adapter H; destruct (is_Exception e); reflexivity. Qed.

Lemma search_exa_reply (q : string) (n : Z) (a : bool) (resp : exa_response) :
  exa_search_and_contents w (getenv w "EXA_API_KEY") (exa_request_of q n a) = inr resp ->
  search_exa w q n a =
    ([LogInfo ("Exa searching: " ++ q);
      ExaCall (getenv w "EXA_API_KEY") (exa_request_of q n a)],
     inr (match exa_results resp with
          | [] => "Notice: No Exa results for '" ++ q ++ "'."
          | _ :: _ =>
              ("**Exa Neural Data:**" ++ LF)
                ++ join (map (fun ir => exa_entry (fst ir) (snd ir))
                             (enumerate (exa_results resp) 1))
          end)).
Proof.
  intros H; run_adapter H.
  destruct (exa_results resp) as [|r rs] eqn:E; [reflexivity |].
  cbn [fst snd app]. do 2 f_equal.
  now rewrite fold_left_append.
Qed.

Lemma search_with_urls_raise (q : string) (us : list string) (t : string)
      (n : Z) (e : exn) :
  tavily_search w (getenv w "TAVILY_API_KEY")
    (urls_request_of q (map (extract_domain w) us) n) = inl e ->
  search_with_urls w q us t n =
    if is_Exception e
    then ([LogInfo ("Specific URL search in: " ++ repr_list w us);
           TavilyCall (getenv w "TAVILY_API_KEY")
                      (urls_request_of q (map (extract_domain w) us) n);
           LogError ("Domain search error: " ++ str_exn e)],
          inr ("Error: Domain search failed (" ++ str_exn e ++ ")"))
    else ([LogInfo ("Specific URL search in: " ++ repr_list w us);
           TavilyCall (getenv w "TAVILY_API_KEY")
                      (urls_request_of q (map (extract_domain w) us) n)],
          inl e).
Proof. intros H; run_adapter H; destruct (is_Exception e); reflexivity. Qed.

Lemma search_with_urls_reply (q : string) (us : list string) (t : string)
      (n : Z) (resp : tavily_response) :
  tavily_search w (getenv w "TAVILY_API_KEY")
    (urls_request_of q (map (extract_domain w) us) n) = inr resp ->
  search_with_urls w q us t n =
    ([LogInfo ("Specific URL search in: " ++ repr_list w us);
      TavilyCall (getenv w "TAVILY_API_KEY")
                 (urls_request_of q (map (extract_domain w) us) n)],
     inr (match results resp with
          | [] => "Notice: No data found within domains "
                    ++ repr_list w (map (extract_domain w) us) ++ "."
          | _ :: _ =>
              ("**Targeted Domain Results:**" ++ LF)
                ++ join (map urls_entry (results resp))
          end)).
Proof.
  intros H; run_adapter H.
  destruct (results resp) as [|r rs] eqn:E; [reflexivity |].
  cbn [fst snd app]. do 2 f_equal.
  now rewrite fold_left_append.
Qed.

End Runs.

(* ================================================================= *)
(** ** Failures and empty replies *)

(** C1, as stated.  A [KeyboardInterrupt] raised during the backend call
    is not an instance of [Exception]: the handler of [search_tavily]
    does not catch it, no text is returned and the exception reaches the
    caller.  So it is not the case that every exception of the backend
    call ends in a returned ["Error:"] text. *)
Lemma keyboard_interrupt_escapes_adapter :
  backend_reply interrupted_world (Call_search_tavily "X" "advanced" 2)
  = inl (BaseException "KeyboardInterrupt" "")
  /\ outcome (invoke interrupted_world (Call_search_tavily "X" "advanced" 2))
     = inl (BaseException "KeyboardInterrupt" "")
  /\ ~ (forall (w : World) (c : tool_call) (e : exn),
           backend_reply w c = inl e ->
           exists s, outcome (invoke w c) = inr s /\ startswith s "Error:" = true).
Proof.
  split; [reflexivity |]. split; [reflexivity |].
  intros H.
  destruct (H interrupted_world (Call_search_tavily "X" "advanced" 2)
              (BaseException "KeyboardInterrupt" "") eq_refl) as (s & Hs & _).
  discriminate Hs.
Qed.

(** C1 (amended).  Whichever adapter is called, if its backend call
    raises an exception [e] that is an instance of [Exception], the
    adapter returns normally (nothing is raised to the caller) and the
    text it returns is the adapter's error message for [e], which begins
    with ["Error:"].  An exception that is not an instance of
    [Exception] is not caught and reaches the caller. *)
Theorem backend_exception_becomes_error_text (w : World) (c : tool_call) (e : exn) :
  backend_reply w c = inl e ->
  (is_Exception e = true ->
   outcome (invoke w c) = inr (error_text c e)
   /\ startswith (error_text c e) "Error:" = true)
  /\ (is_Exception e = false -> outcome (invoke w c) = inl e).
Proof.
  destruct c as [q d n | q n a | q us t n]; unfold backend_reply; simpl invoke.
  - destruct (tavily_search _ _ _) as [e'|resp] eqn:B; intros H; [|discriminate].
    injection H as ->. rewrite (search_tavily_raise _ _ _ _ _ B).
    split; intros ->; [now split | reflexivity].
  - destruct (exa_search_and_contents _ _ _) as [e'|resp] eqn:B; intros H; [|discriminate].
    injection H as ->. rewrite (search_exa_raise _ _ _ _ _ B).
    split; intros ->; [now split | reflexivity].
  - destruct (tavily_search _ _ _) as [e'|resp] eqn:B; intros H; [|discriminate].
    injection H as ->. rewrite (search_with_urls_raise _ _ _ t _ _ B).
    split; intros ->; [now split | reflexivity].
Qed.

Lemma backend_exception_becomes_error_text_witness :
  backend_reply offline_world (Call_search_with_urls "grants" ["www.nu.edu.eg"] "auto" 5)
    = inl (Exception "MissingAPIKeyError" "No API key provided")
  /\ is_Exception (Exception "MissingAPIKeyError" "No API key provided") = true
  /\ outcome (invoke offline_world
                (Call_search_with_urls "grants" ["www.nu.edu.eg"] "auto" 5))
     = inr "Error: Domain search failed (No API key provided)"
  /\ startswith "Error: Domain search failed (No API key provided)" "Error:" = true.
Proof.
  split; [reflexivity |]. split; [reflexivity |].
  destruct (backend_exception_becomes_error_text offline_world
              (Call_search_with_urls "grants" ["www.nu.edu.eg"] "auto" 5)
              (Exception "MissingAPIKeyError" "No API key provided") eq_refl)
    as [Hcaught _].
  apply Hcaught. reflexivity.
Defined.

(** C2.  Whichever adapter is called, if the backend's reply holds zero
    results, the adapter returns normally with its notice: a non-empty
    text that contains ["No Tavily results"], ["No Exa results"] or
    ["No data found"] according to the adapter, and that does not begin
    with ["Error:"]. *)
Theorem empty_reply_becomes_notice (w : World) (c : tool_call) :
  backend_reply w c = inr 0 ->
  outcome (invoke w c) = inr (notice_text w c)
  /\ contains (notice_phrase c) (notice_text w c) = true
  /\ notice_text w c <> EmptyString
  /\ startswith (notice_text w c) "Error:" = false.
Proof.
  destruct c as [q d n | q n a | q us t n]; unfold backend_reply; simpl invoke.
  - destruct (tavily_search _ _ _) as [e'|resp] eqn:B; intros H; [discriminate|].
    rewrite (search_tavily_reply _ _ _ _ _ B).
    destruct (results resp); [|discriminate].
    split; [reflexivity | split; [| split; [discriminate | reflexivity]]].
    apply (contains_append "No Tavily results" "Notice: " (" for '" ++ q ++ "'.")).
  - destruct (exa_search_and_contents _ _ _) as [e'|resp] eqn:B; intros H; [discriminate|].
    rewrite (search_exa_reply _ _ _ _ _ B).
    destruct (exa_results resp); [|discriminate].
    split; [reflexivity | split; [| split; [discriminate | reflexivity]]].
    apply (contains_append "No Exa results" "Notice: " (" for '" ++ q ++ "'.")).
  - destruct (tavily_search _ _ _) as [e'|resp] eqn:B; intros H; [discriminate|].
    rewrite (search_with_urls_reply _ _ _ t _ _ B).
    destruct (results resp); [|discriminate].
    split; [reflexivity | split; [| split; [discriminate | reflexivity]]].
    apply (contains_append "No data found" "Notice: "
             (" within domains " ++ repr_list w (map (extract_domain w) us) ++ ".")).
Qed.

Lemma empty_reply_becomes_notice_witness :
  backend_reply empty_world (Call_search_exa "quantum widgets" 3 true) = inr 0
  /\ outcome (invoke empty_world (Call_search_exa "quantum widgets" 3 true))
     = inr "Notice: No Exa results for 'quantum widgets'."
  /\ contains "No Exa results" "Notice: No Exa results for 'quantum widgets'." = true
  /\ "Notice: No Exa results for 'quantum widgets'." <> EmptyString
  /\ startswith "Notice: No Exa results for 'quantum widgets'." "Error:" = false.
Proof.
  split; [reflexivity |].
  apply (empty_reply_becomes_notice empty_world
           (Call_search_exa "quantum widgets" 3 true)).
  reflexivity.
Defined.

(** Unless the backend call raises an exception that is not an instance
    of [Exception], an adapter returns a text. *)
Lemma adapters_return_text (w : World) (c : tool_call) :
  (forall e, backend_reply w c = inl e -> is_Exception e = true) ->
  exists s, outcome (invoke w c) = inr s.
Proof.
  destruct c as [q d n | q n a | q us t n]; unfold backend_reply; simpl invoke.
  - destruct (tavily_search w (getenv w "TAVILY_API_KEY") (tavily_request_of q d n))
      as [e|resp] eqn:B; intros H.
    + rewrite (search_tavily_raise _ _ _ _ _ B), (H e eq_refl). eexists; reflexivity.
    + rewrite (search_tavily_reply _ _ _ _ _ B). eexists; reflexivity.
  - destruct (exa_search_and_contents w (getenv w "EXA_API_KEY") (exa_request_of q n a))
      as [e|resp] eqn:B; intros H.
    + rewrite (search_exa_raise _ _ _ _ _ B), (H e eq_refl). eexists; reflexivity.
    + rewrite (search_exa_reply _ _ _ _ _ B). eexists; reflexivity.
  - destruct (tavily_search w (getenv w "TAVILY_API_KEY")
                (urls_request_of q (map (extract_domain w) us) n)) as [e|resp] eqn:B;
      intros H.
    + rewrite (search_with_urls_raise _ _ _ t _ _ B), (H e eq_refl). eexists; reflexivity.
    + rewrite (search_with_urls_reply _ _ _ t _ _ B). eexists; reflexivity.
Qed.

(** An exception of the backend call that is not an instance of
    [Exception] leaves the adapter as it came. *)
Lemma adapters_escape (w : World) (c : tool_call) (e : exn) :
  backend_reply w c = inl e -> is_Exception e = false ->
  outcome (invoke w c) = inl e.
Proof.
  destruct c as [q d n | q n a | q us t n]; unfold backend_reply; simpl invoke.
  - destruct (tavily_search _ _ _) as [e'|resp] eqn:B; intros H He; [|discriminate].
    injection H as ->. now rewrite (search_tavily_raise _ _ _ _ _ B), He.
  - destruct (exa_search_and_contents _ _ _) as [e'|resp] eqn:B; intros H He; [|discriminate].
    injection H as ->. now rewrite (search_exa_raise _ _ _ _ _ B), He.
  - destruct (tavily_search _ _ _) as [e'|resp] eqn:B; intros H He; [|discriminate].
    injection H as ->. now rewrite (search_with_urls_raise _ _ _ t _ _ B), He.
Qed.

(* ================================================================= *)
(** ** The domain-restricted adapter and its backend *)

Lemma search_with_urls_trace (w : World) (q : string) (us : list string)
      (t : string) (n : Z) :
  backend_calls (trace (search_with_urls w q us t n))
  = [TavilyCall (getenv w "TAVILY_API_KEY")
                (urls_request_of q (map (extract_domain w) us) n)].
Proof.
  destruct (tavily_search w (getenv w "TAVILY_API_KEY")
              (urls_request_of q (map (extract_domain w) us) n)) as [e|resp] eqn:B.
  - rewrite (search_with_urls_raise _ _ _ t _ _ B). now destruct (is_Exception e).
  - now rewrite (search_with_urls_reply _ _ _ t _ _ B).
Qed.

(** C3.  Two runs of [search_with_urls] that differ only in [use_tool]
    are the same run: the same events in the same order and the same
    returned text.  Every backend call of such a run is a call of the
    structured-search (Tavily) client; the Exa client is never called. *)
Theorem search_with_urls_ignores_use_tool (w : World) (q : string)
        (us : list string) (t1 t2 : string) (n : Z) :
  search_with_urls w q us t1 n = search_with_urls w q us t2 n
  /\ Forall (fun ev => exists k r, ev = TavilyCall k r)
            (backend_calls (trace (search_with_urls w q us t1 n)))
  /\ (forall k r, ~ In (ExaCall k r) (trace (search_with_urls w q us t1 n))).
Proof.
  split; [reflexivity |]. split.
  - rewrite search_with_urls_trace. constructor; [eauto | constructor].
  - intros k r HIn.
    assert (In (ExaCall k r) (backend_calls (trace (search_with_urls w q us t1 n)))) as H
      by (apply filter_In; split; [exact HIn | reflexivity]).
    rewrite search_with_urls_trace in H.
    destruct H as [H|[]]; discriminate.
Qed.

(* ================================================================= *)
(** ** The domain normalizer *)

Lemma host_char_neq (d c : ascii) :
  host_char d = true ->
  In c (UrlLib.unsafe_url_bytes ++ ["/"; "?"; "#"; "["; "]"]%char)%list ->
  Ascii.eqb d c = false.
Proof.
  unfold host_char. rewrite !andb_true_iff, !negb_true_iff.
  intros [[_ H1] H2] HIn.
  apply in_app_or in HIn as [HIn|HIn];
    (destruct (Ascii.eqb d c) eqn:E; [|reflexivity]).
  - rewrite <- H1. symmetry. apply existsb_exists. eauto.
  - rewrite <- H2. symmetry. apply existsb_exists. eauto.
Qed.

Lemma find_host_none (c : ascii) (h : string) :
  all host_char h = true ->
  In c (UrlLib.unsafe_url_bytes ++ ["/"; "?"; "#"; "["; "]"]%char)%list ->
  find c h = None.
Proof.
  intros Hall HIn. induction h as [|d h IH]; simpl; [reflexivity |].
  simpl in Hall. apply andb_true_iff in Hall as [Hd Hh].
  rewrite (host_char_neq d c Hd HIn), (IH Hh). reflexivity.
Qed.

Lemma remove_absent (c : ascii) (s : string) : find c s = None -> remove c s = s.
Proof.
  induction s as [|d s IH]; simpl; [reflexivity |].
  destruct (Ascii.eqb d c); [discriminate |].
  destruct (find c s); [discriminate |]. intros _. now rewrite IH.
Qed.

Lemma isascii_host (h : string) : all host_char h = true -> isascii h = true.
Proof.
  induction h as [|d h IH]; simpl; [reflexivity |].
  intros H. apply andb_true_iff in H as [Hd Hh].
  unfold isascii in *. simpl. rewrite (IH Hh), andb_true_r.
  unfold host_char in Hd. now rewrite !andb_true_iff in Hd.
Qed.

Lemma splitnetloc_host (h : string) :
  find "/" h = None -> find "?" h = None -> find "#" h = None ->
  UrlLib.splitnetloc ("//" ++ h) 2 = (h, EmptyString).
Proof.
  intros H1 H2 H3. unfold UrlLib.splitnetloc, find_from, slice.
  change (drop 2 ("//" ++ h)) with h.
  simpl fold_left. rewrite H1, H2, H3. simpl option_map. cbv beta iota.
  change (String.length ("//" ++ h)) with (S (S (String.length h))).
  change (S (S (String.length h)) - 2) with (String.length h - 0).
  rewrite Nat.sub_0_r, take_length.
  change (drop (S (S (String.length h))) ("//" ++ h)) with (drop (String.length h) h).
  now rewrite drop_length.
Qed.

(** What [urlparse] makes of ["https://"] followed by a host. *)
Lemma urlparse_https_host (w : World) (h : string) :
  all host_char h = true ->
  urlparse w ("https://" ++ h) = inr (UrlLib.mkParseResult "https" h).
Proof.
  intros Hh.
  assert (forall c, In c (UrlLib.unsafe_url_bytes ++ ["/"; "?"; "#"; "["; "]"]%char)%list ->
                    find c h = None) as Hnone
    by (intros c; apply find_host_none; exact Hh).
  unfold urlparse, UrlLib.urlparse, UrlLib.urlsplit.
  change (lstrip UrlLib.c0_control_or_space ("https://" ++ h)) with ("https://" ++ h).
  assert (fold_left (fun u b => remove b u) UrlLib.unsafe_url_bytes ("https://" ++ h)
          = "https://" ++ h) as ->.
  { simpl. do 3 (rewrite (remove_absent _ h) by (apply Hnone; simpl; auto 10)).
    reflexivity. }
  change (find ":" ("https://" ++ h)) with (Some 5).
  cbv beta iota zeta.
  change ("https://" ++ h) with (String "h" ("ttps://" ++ h)) at 1.
  cbv beta iota.
  change (take 5 ("https://" ++ h)) with "https".
  change (drop (5 + 1) ("https://" ++ h)) with ("//" ++ h).
  change (is_ascii_alpha "h" && all UrlLib.scheme_char "https") with true.
  change (lower "https") with "https".
  cbv beta iota zeta.
  change (take 2 ("//" ++ h) =? "//") with true.
  cbv beta iota zeta.
  rewrite splitnetloc_host by (apply Hnone; simpl; auto 10).
  unfold has. rewrite !Hnone by (simpl; auto 10).
  cbv beta iota. simpl andb. simpl orb. cbv iota.
  unfold UrlLib.checknetloc. rewrite (isascii_host h Hh), orb_true_r. reflexivity.
Qed.

Lemma extract_domain_https_www (w : World) (h : string) :
  all host_char h = true ->
  extract_domain w ("https://www." ++ h) = h.
Proof.
  intros Hh. unfold extract_domain.
  change (negb (contains "://" ("https://www." ++ h))) with false. cbv iota.
  change ("https://www." ++ h) with ("https://" ++ ("www." ++ h)).
  rewrite urlparse_https_host by exact Hh.
  cbn [UrlLib.netloc]. unfold startswith.
  now rewrite (prefix_append "www." h).
Qed.

Lemma extract_domain_https_other (w : World) (h : string) :
  all host_char h = true ->
  startswith h "www." = false ->
  extract_domain w ("https://" ++ h) = h.
Proof.
  intros Hh Hw. unfold extract_domain.
  rewrite (contains_append "://" "https" h : contains "://" ("https://" ++ h) = true).
  simpl negb. cbv iota.
  rewrite urlparse_https_host by exact Hh.
  cbn [UrlLib.netloc]. now rewrite Hw.
Qed.

(** When the parse raises, the handler returns the value [url] is bound
    to at that point: the argument itself if it held ["://"], and the
    argument behind ["http://"] otherwise. *)
Lemma extract_domain_on_failure (w : World) (url : string) (e : exn) :
  urlparse w (if contains "://" url then url else "http://" ++ url) = inl e ->
  extract_domain w url = if contains "://" url then url else "http://" ++ url.
Proof.
  unfold extract_domain. destruct (contains "://" url); simpl negb; cbv iota;
    intros ->; reflexivity.
Qed.

(** C5.  The handler of [extract_domain] returns the rebound [url], not
    the argument: ["[abc"] holds no ["://"], is rebound to
    ["http://[abc"], the parse of that raises [ValueError] for the
    unbalanced bracket, and ["http://[abc"] is returned, which is not the
    input.  An argument that already holds ["://"] is returned as it
    is. *)
Theorem extract_domain_failure_returns_rebound_url (w : World) :
  urlparse w "http://[abc" = inl (ValueError "Invalid IPv6 URL")
  /\ extract_domain w "[abc" = "http://[abc"
  /\ extract_domain w "[abc" <> "[abc"
  /\ extract_domain w "http://[abc" = "http://[abc".
Proof.
  split; [reflexivity |]. split; [reflexivity |].
  split; [discriminate | reflexivity].
Qed.

(** C6.  [extract_domain("https://www.example.com/path")] is
    ["example.com"], and so is [extract_domain("example.com")]: scheme,
    path and a leading ["www."] go, and the default scheme is put in
    front of an argument without ["://"] before it is parsed. *)
Theorem extract_domain_examples (w : World) :
  extract_domain w "https://www.example.com/path" = "example.com"
  /\ extract_domain w "example.com" = "example.com"
  /\ urlparse w ("http://" ++ "example.com")
     = inr (UrlLib.mkParseResult "http" "example.com").
Proof. repeat split. Qed.

(** C10.  The ["www."] prefix is matched in lower case and taken off
    once: [extract_domain("https://WWW.example.com")] is
    ["WWW.example.com"] and [extract_domain("https://www.www.example.com")]
    is ["www.example.com"].  For every host [h], ["https://www." ++ h]
    gives [h], even when [h] itself begins with ["www."], and
    ["https://" ++ h] gives [h] when [h] does not begin with the four
    characters ["www."]. *)
Theorem extract_domain_www_once_case_sensitive (w : World) :
  extract_domain w "https://WWW.example.com" = "WWW.example.com"
  /\ extract_domain w "https://www.www.example.com" = "www.example.com"
  /\ (forall h, all host_char h = true ->
                extract_domain w ("https://www." ++ h) = h)
  /\ (forall h, all host_char h = true -> startswith h "www." = false ->
                extract_domain w ("https://" ++ h) = h).
Proof.
  split; [reflexivity |]. split; [reflexivity |]. split.
  - intros h; apply extract_domain_https_www.
  - intros h; apply extract_domain_https_other.
Qed.

Lemma extract_domain_www_once_case_sensitive_witness :
  all host_char "www.nu.edu.eg:443" = true
  /\ extract_domain offline_world ("https://www." ++ "www.nu.edu.eg:443")
     = "www.nu.edu.eg:443"
  /\ all host_char "Www.nu.edu.eg" = true
  /\ startswith "Www.nu.edu.eg" "www." = false
  /\ extract_domain offline_world ("https://" ++ "Www.nu.edu.eg") = "Www.nu.edu.eg".
Proof.
  destruct (extract_domain_www_once_case_sensitive offline_world)
    as (_ & _ & Hwww & Hother).
  split; [reflexivity |]. split; [apply Hwww; reflexivity |].
  split; [reflexivity |]. split; [reflexivity |].
  apply Hother; reflexivity.
Defined.

(** C7.  A run of [search_with_urls] calls the structured-search backend
    once, with the query and the ceiling it was given and with
    [include_domains] equal to the list of [extract_domain u] for the
    [u] of [urls], in order.  For [urls = ["https://www.nu.edu.eg/page"]]
    the filter is [["nu.edu.eg"]]. *)
Theorem search_with_urls_filters_by_normalized_domains
        (w : World) (q : string) (us : list string) (t : string) (n : Z) :
  (exists req,
      backend_calls (trace (search_with_urls w q us t n))
      = [TavilyCall (getenv w "TAVILY_API_KEY") req]
      /\ tq_include_domains req = Some (map (extract_domain w) us)
      /\ tq_query req = q /\ tq_max_results req = n)
  /\ (exists req,
         backend_calls (trace (search_with_urls w q ["https://www.nu.edu.eg/page"] t n))
         = [TavilyCall (getenv w "TAVILY_API_KEY") req]
         /\ tq_include_domains req = Some ["nu.edu.eg"]).
Proof.
  split.
  - eexists. rewrite search_with_urls_trace. repeat split.
  - eexists. rewrite search_with_urls_trace. repeat split.
Qed.

(* ================================================================= *)
(** ** The lines of the structured-search text *)

Lemma single_line_find (s : string) :
  single_line s = true <-> find (ascii_of_nat 10) s = None.
Proof.
  unfold single_line, has. destruct (find _ s); simpl; split; congruence.
Qed.

Lemma find_append_none (c : ascii) (a b : string) :
  find c a = None -> find c b = None -> find c (a ++ b) = None.
Proof.
  intros Ha Hb. induction a as [|d a IH]; simpl in *; [exact Hb |].
  destruct (Ascii.eqb d c); [discriminate |].
  destruct (find c a); [discriminate |]. now rewrite IH.
Qed.

Lemma single_line_append (a b : string) :
  single_line a = true -> single_line b = true -> single_line (a ++ b) = true.
Proof. rewrite !single_line_find. apply find_append_none. Qed.

Lemma single_line_take (n : nat) (s : string) :
  single_line s = true -> single_line (take n s) = true.
Proof.
  rewrite !single_line_find. revert s.
  induction n as [|n IH]; intros [|d s]; simpl; try reflexivity.
  destruct (Ascii.eqb d _); [discriminate |].
  destruct (find _ s) eqn:E; [discriminate |]. intros _. now rewrite IH.
Qed.

Lemma lines_from_line (cur a b : string) :
  single_line a = true ->
  lines_from cur (a ++ LF ++ b) = (cur ++ a) :: lines_from EmptyString b.
Proof.
  rewrite single_line_find. revert cur.
  induction a as [|d a IH]; intros cur; simpl.
  - intros _. now rewrite append_empty_r.
  - destruct (Ascii.eqb d _); [discriminate |].
    destruct (find _ a) eqn:E; [discriminate |]. intros _.
    rewrite IH by reflexivity. now rewrite append_assoc.
Qed.

Lemma count_lines_line (p : string -> bool) (a b : string) :
  single_line a = true ->
  count_lines p (a ++ LF ++ b) = (if p a then 1 else 0) + count_lines p b.
Proof.
  intros Ha. unfold count_lines, lines. rewrite lines_from_line by exact Ha.
  simpl. destruct (p a); reflexivity.
Qed.

Lemma digits_of_uint (d : Decimal.uint) :
  all is_digit (NilEmpty.string_of_uint d) = true.
Proof. induction d; simpl; auto. Qed.

Lemma of_nat_digits (n : nat) : all is_digit (of_nat n) = true.
Proof.
  unfold of_nat, NilZero.string_of_uint.
  destruct (Nat.to_uint n) eqn:E; try reflexivity; rewrite <- E; apply digits_of_uint.
Qed.

Lemma of_nat_nonempty (n : nat) : exists c s, of_nat n = String c s.
Proof.
  unfold of_nat, NilZero.string_of_uint.
  destruct (Nat.to_uint n); simpl; eauto.
Qed.

Lemma length_append (a b : string) :
  String.length (a ++ b) = String.length a + String.length b.
Proof. induction a as [|c a IH]; simpl; [reflexivity | now rewrite IH]. Qed.

Lemma single_line_digits (s : string) :
  all is_digit s = true -> single_line s = true.
Proof.
  rewrite single_line_find.
  induction s as [|d s IH]; simpl; [reflexivity |].
  intros H. apply andb_true_iff in H as [Hd Hs].
  destruct (Ascii.eqb_spec d (ascii_of_nat 10)) as [->|_]; [discriminate |].
  now rewrite (IH Hs).
Qed.

Lemma lstrip_digits (d rest : string) :
  all is_digit d = true ->
  lstrip is_digit (d ++ rest) = lstrip is_digit rest.
Proof.
  induction d as [|c d IH]; simpl; [reflexivity |].
  intros H. apply andb_true_iff in H as [Hc Hd]. now rewrite Hc, IH.
Qed.

Lemma numbered_line_intro (d x : string) :
  all is_digit d = true -> d <> EmptyString ->
  is_numbered_line (d ++ ". " ++ x) = true.
Proof.
  intros Hd Hne. unfold is_numbered_line.
  rewrite (lstrip_digits d (". " ++ x) Hd).
  change (lstrip is_digit (". " ++ x)) with (". " ++ x).
  rewrite (prefix_append ". " x), andb_true_r.
  rewrite (length_append d (". " ++ x)).
  destruct d as [|c d]; [now elim Hne |].
  apply negb_true_iff, Nat.eqb_neq. simpl. lia.
Qed.

Lemma not_numbered_line (c : ascii) (x : string) :
  is_digit c = false -> is_numbered_line (String c x) = false.
Proof.
  intros Hc. unfold is_numbered_line. simpl lstrip. rewrite Hc.
  now rewrite Nat.eqb_refl.
Qed.

Lemma not_summary_line (c : ascii) (x : string) :
  Ascii.eqb c "Q" = false -> String.prefix "Quick Summary:" (String c x) = false.
Proof.
  intros Hc.
  change (String.prefix "Quick Summary:" (String c x))
    with (if ascii_dec "Q" c then String.prefix "uick Summary:" x else false).
  destruct (ascii_dec "Q" c) as [<-|_]; [discriminate | reflexivity].
Qed.

Lemma tavily_entry_lines (i : nat) (r : tavily_result) (rest : string) :
  tavily_entry i r ++ rest
  = (of_nat i ++ ". " ++ title r ++ " - " ++ url r)
      ++ LF ++ ("Snippet: " ++ take 200 (content r)) ++ LF ++ rest.
Proof. unfold tavily_entry. repeat rewrite append_assoc. reflexivity. Qed.

Lemma count_lines_entries (p : string -> bool) (v : bool)
      (l : list tavily_result) (k : nat) :
  (forall i x, p (of_nat i ++ ". " ++ x) = v) ->
  (forall x, p ("Snippet: " ++ x) = false) ->
  p EmptyString = false ->
  forallb single_line_result l = true ->
  count_lines p (join (map (fun ir => tavily_entry (fst ir) (snd ir)) (enumerate l k)))
  = if v then List.length l else 0.
Proof.
  intros Hfirst Hsecond Hempty. revert k.
  induction l as [|r l IH]; intros k Hl.
  - simpl. unfold count_lines. simpl. rewrite Hempty. now destruct v.
  - simpl in Hl. apply andb_true_iff in Hl as [Hr Hl].
    unfold single_line_result in Hr.
    apply andb_true_iff in Hr as [Hr Hc]. apply andb_true_iff in Hr as [Ht Hu].
    cbn [enumerate map join fold_right fst snd].
    rewrite tavily_entry_lines.
    rewrite count_lines_line.
    2:{ repeat apply single_line_append; auto.
        apply single_line_digits, of_nat_digits. }
    rewrite count_lines_line.
    2:{ apply single_line_append; [reflexivity | now apply single_line_take]. }
    rewrite Hfirst, Hsecond.
    fold (join (map (fun ir => tavily_entry (fst ir) (snd ir)) (enumerate l (S k)))).
    rewrite (IH (S k) Hl). destruct v; reflexivity.
Qed.

Lemma of_nat_first_digit (i : nat) :
  exists c s, of_nat i = String c s /\ is_digit c = true.
Proof.
  destruct (of_nat_nonempty i) as (c & s & E). exists c, s. split; [exact E |].
  pose proof (of_nat_digits i) as H. rewrite E in H. simpl in H.
  now apply andb_true_iff in H as [H _].
Qed.

Lemma numbered_entry_line (i : nat) (x : string) :
  is_numbered_line (of_nat i ++ ". " ++ x) = true.
Proof.
  apply numbered_line_intro; [apply of_nat_digits |].
  destruct (of_nat_nonempty i) as (c & s & ->). discriminate.
Qed.

Lemma entry_line_not_summary (i : nat) (x : string) :
  String.prefix "Quick Summary:" (of_nat i ++ ". " ++ x) = false.
Proof.
  destruct (of_nat_first_digit i) as (c & s & -> & Hc).
  apply (not_summary_line c).
  destruct (Ascii.eqb_spec c "Q") as [->|_]; [discriminate | reflexivity].
Qed.

Lemma count_lines_tavily_text (p : string -> bool) (v vs : bool)
      (a : option string) (l : list tavily_result) :
  (forall i x, p (of_nat i ++ ". " ++ x) = v) ->
  (forall x, p ("Snippet: " ++ x) = false) ->
  (forall t, p ("Quick Summary: " ++ t) = vs) ->
  p "**Tavily Data:**" = false ->
  p EmptyString = false ->
  forallb single_line_result l = true ->
  single_line_answer a = true ->
  count_lines p (("**Tavily Data:**" ++ LF) ++ summary_text a
                   ++ join (map (fun ir => tavily_entry (fst ir) (snd ir))
                                (enumerate l 1)))
  = (if has_answer a && vs then 1 else 0) + (if v then List.length l else 0).
Proof.
  intros Hfirst Hsecond Hsum Hhdr Hempty Hl Ha.
  rewrite (append_assoc "**Tavily Data:**" LF).
  rewrite count_lines_line by reflexivity. rewrite Hhdr.
  pose proof (count_lines_entries p v l 1 Hfirst Hsecond Hempty Hl) as Hentries.
  destruct a as [t|]; cbn [summary_text has_answer].
  - destruct (truthy t) eqn:Et; cbn [andb].
    + match goal with
      | |- _ + count_lines p (_ ++ ?J) = _ =>
          replace (("Quick Summary: " ++ t ++ LF) ++ J)
            with (("Quick Summary: " ++ t) ++ LF ++ J)
            by (repeat rewrite append_assoc; reflexivity)
      end.
      rewrite count_lines_line.
      2:{ apply single_line_append; [reflexivity | exact Ha]. }
      rewrite Hsum, Hentries. destruct vs; reflexivity.
    + cbn [String.append]. rewrite Hentries. reflexivity.
  - cbn [String.append andb]. rewrite Hentries. reflexivity.
Qed.

Lemma numbered_entries_tavily_text (a : option string) (l : list tavily_result) :
  forallb single_line_result l = true ->
  single_line_answer a = true ->
  numbered_entries (("**Tavily Data:**" ++ LF) ++ summary_text a
                      ++ join (map (fun ir => tavily_entry (fst ir) (snd ir))
                                   (enumerate l 1)))
  = List.length l.
Proof.
  intros Hl Ha. unfold numbered_entries.
  rewrite (count_lines_tavily_text is_numbered_line true false a l);
    [ now rewrite andb_false_r
    | apply numbered_entry_line
    | intros x; now apply (not_numbered_line "S")
    | intros t; now apply (not_numbered_line "Q")
    | reflexivity | reflexivity | exact Hl | exact Ha ].
Qed.

Lemma summary_lines_tavily_text (a : option string) (l : list tavily_result) :
  forallb single_line_result l = true ->
  single_line_answer a = true ->
  summary_lines (("**Tavily Data:**" ++ LF) ++ summary_text a
                   ++ join (map (fun ir => tavily_entry (fst ir) (snd ir))
                                (enumerate l 1)))
  = if has_answer a then 1 else 0.
Proof.
  intros Hl Ha. unfold summary_lines.
  rewrite (count_lines_tavily_text (String.prefix "Quick Summary:") false true a l);
    [ rewrite andb_true_r; destruct (has_answer a); reflexivity
    | apply entry_line_not_summary
    | intros x; now apply (not_summary_line "S")
    | intros t; apply (prefix_append "Quick Summary:" (" " ++ t))
    | reflexivity | reflexivity | exact Hl | exact Ha ].
Qed.

(* ================================================================= *)
(** ** The formatted text *)

(** C4, as stated.  The backend of [two_results_world] returns two
    results to a request whose ceiling is 1, and [search_tavily] shows both: the claim that
    the text never shows more than [max_results] numbered entries,
    whatever the reply holds, fails. *)
Lemma search_tavily_entries_exceed_ceiling :
  outcome (search_tavily two_results_world "X" "advanced" 1)
  = inr ("**Tavily Data:**" ++ LF
         ++ "Quick Summary: Forty-two." ++ LF
         ++ "1. Alpha - https://a.example/1" ++ LF
         ++ "Snippet: first" ++ LF
         ++ "2. Beta - https://b.example/2" ++ LF
         ++ "Snippet: second" ++ LF)
  /\ ~ (forall (w : World) (q d : string) (n : Z) (out : string),
           outcome (search_tavily w q d n) = inr out ->
           (Z.of_nat (numbered_entries out) <= n)%Z).
Proof.
  split; [reflexivity |].
  intros H.
  specialize (H two_results_world "X" "advanced" 1%Z _ eq_refl).
  vm_compute in H. apply H; reflexivity.
Qed.

(** C4 (amended).  [search_tavily] hands [max_results] to the backend as
    the request's ceiling and does not cut the reply: when the reply
    holds at least one result, the text is the header, the summary line
    if any, and one numbered entry per result of the reply, numbered
    from 1 in the reply's order.  The text therefore shows at most
    [max_results] entries whenever the reply holds at most [max_results]
    results.  When no field of the reply holds a line feed, the numbered
    lines of the text are as many as the results of the reply. *)
Theorem search_tavily_one_entry_per_result
        (w : World) (q d : string) (n : Z) (resp : tavily_response) :
  tavily_search w (getenv w "TAVILY_API_KEY") (tavily_request_of q d n) = inr resp ->
  let entries :=
    map (fun ir => tavily_entry (fst ir) (snd ir)) (enumerate (results resp) 1) in
  backend_calls (trace (search_tavily w q d n))
  = [TavilyCall (getenv w "TAVILY_API_KEY") (tavily_request_of q d n)]
  /\ tq_max_results (tavily_request_of q d n) = n
  /\ (results resp <> [] ->
      outcome (search_tavily w q d n)
      = inr (("**Tavily Data:**" ++ LF) ++ summary_text (answer resp) ++ join entries))
  /\ List.length entries = List.length (results resp)
  /\ map fst (enumerate (results resp) 1) = seq 1 (List.length (results resp))
  /\ map snd (enumerate (results resp) 1) = results resp
  /\ ((Z.of_nat (List.length (results resp)) <= n)%Z ->
      (Z.of_nat (List.length entries) <= n)%Z)
  /\ (results resp <> [] ->
      forallb single_line_result (results resp) = true ->
      single_line_answer (answer resp) = true ->
      exists out,
        outcome (search_tavily w q d n) = inr out
        /\ numbered_entries out = List.length (results resp)).
Proof.
  intros B entries.
  assert (List.length entries = List.length (results resp)) as Hlen
    by (unfold entries; now rewrite length_map, enumerate_length).
  assert (results resp <> [] ->
          outcome (search_tavily w q d n)
          = inr (("**Tavily Data:**" ++ LF) ++ summary_text (answer resp) ++ join entries))
    as Hout.
  { intros Hne. rewrite (search_tavily_reply w q d n resp B). simpl outcome.
    destruct (results resp); [now elim Hne | reflexivity]. }
  split; [now rewrite (search_tavily_reply w q d n resp B) |].
  split; [reflexivity |]. split; [exact Hout |].
  split; [exact Hlen |]. split; [apply enumerate_fst |].
  split; [apply enumerate_snd |]. split; [now rewrite Hlen |].
  intros Hne Hl Ha. eexists. split; [apply Hout, Hne |].
  now apply numbered_entries_tavily_text.
Qed.

Lemma search_tavily_one_entry_per_result_witness :
  tavily_search two_results_world (getenv two_results_world "TAVILY_API_KEY")
                (tavily_request_of "X" "advanced" 5)
  = inr {| answer := Some "Forty-two."; results := [result_a; result_b] |}
  /\ outcome (search_tavily two_results_world "X" "advanced" 5)
     = inr (("**Tavily Data:**" ++ LF)
            ++ ("Quick Summary: Forty-two." ++ LF)
            ++ join [tavily_entry 1 result_a; tavily_entry 2 result_b])
  /\ (Z.of_nat (List.length [tavily_entry 1 result_a; tavily_entry 2 result_b]) <= 5)%Z.
Proof.
  split; [reflexivity |].
  destruct (search_tavily_one_entry_per_result two_results_world "X" "advanced" 5
              {| answer := Some "Forty-two."; results := [result_a; result_b] |}
              eq_refl)
    as (_ & _ & Hout & _ & _ & _ & Hle & _).
  split.
  - apply Hout. discriminate.
  - apply Hle. simpl. lia.
Defined.

(** C8.  In the text of each of the three adapters, the entry of a
    result [r] of the reply carries, between the entry's fixed text, a
    snippet of [r] that is at most 200 characters long and is the
    beginning of [r]'s content (or text). *)
Theorem snippets_at_most_200 (w : World) :
  (forall q d n resp,
      tavily_search w (getenv w "TAVILY_API_KEY") (tavily_request_of q d n) = inr resp ->
      results resp <> [] ->
      exists snippet : tavily_result -> string,
        (forall r, String.length (snippet r) <= 200
                   /\ String.prefix (snippet r) (content r) = true)
        /\ outcome (search_tavily w q d n)
           = inr (("**Tavily Data:**" ++ LF) ++ summary_text (answer resp)
                  ++ join (map (fun ir =>
                                  of_nat (fst ir) ++ ". " ++ title (snd ir) ++ " - "
                                    ++ url (snd ir) ++ LF
                                    ++ "Snippet: " ++ snippet (snd ir) ++ LF)
                               (enumerate (results resp) 1))))
  /\ (forall q n a resp,
         exa_search_and_contents w (getenv w "EXA_API_KEY") (exa_request_of q n a)
         = inr resp ->
         exa_results resp <> [] ->
         exists snippet : exa_result -> string,
           (forall r, String.length (snippet r) <= 200
                      /\ String.prefix (snippet r) (exa_text r) = true)
           /\ outcome (search_exa w q n a)
              = inr (("**Exa Neural Data:**" ++ LF)
                     ++ join (map (fun ir =>
                                     of_nat (fst ir) ++ ". " ++ exa_title (snd ir) ++ " - "
                                       ++ exa_url (snd ir) ++ LF
                                       ++ "Text: " ++ snippet (snd ir) ++ "..." ++ LF)
                                  (enumerate (exa_results resp) 1))))
  /\ (forall q us t n resp,
         tavily_search w (getenv w "TAVILY_API_KEY")
                       (urls_request_of q (map (extract_domain w) us) n) = inr resp ->
         results resp <> [] ->
         exists snippet : tavily_result -> string,
           (forall r, String.length (snippet r) <= 200
                      /\ String.prefix (snippet r) (content r) = true)
           /\ outcome (search_with_urls w q us t n)
              = inr (("**Targeted Domain Results:**" ++ LF)
                     ++ join (map (fun r =>
                                     "- " ++ title r ++ " (" ++ url r ++ "): "
                                       ++ snippet r ++ LF)
                                  (results resp)))).
Proof.
  split; [| split].
  - intros q d n resp B Hne. exists (fun r => take 200 (content r)). split.
    + intros r; split; [apply length_take | apply take_is_prefix].
    + rewrite (search_tavily_reply w q d n resp B). simpl outcome.
      destruct (results resp); [now elim Hne | reflexivity].
  - intros q n a resp B Hne. exists (fun r => take 200 (exa_text r)). split.
    + intros r; split; [apply length_take | apply take_is_prefix].
    + rewrite (search_exa_reply w q n a resp B). simpl outcome.
      destruct (exa_results resp); [now elim Hne | reflexivity].
  - intros q us t n resp B Hne. exists (fun r => take 200 (content r)). split.
    + intros r; split; [apply length_take | apply take_is_prefix].
    + rewrite (search_with_urls_reply w q us t n resp B). simpl outcome.
      destruct (results resp); [now elim Hne | reflexivity].
Qed.

Lemma snippets_at_most_200_witness :
  tavily_search long_world (getenv long_world "TAVILY_API_KEY")
                (urls_request_of "X" (map (extract_domain long_world) ["l.example"]) 3)
  = inr {| answer := None; results := [long_result] |}
  /\ [long_result] <> []
  /\ String.length (content long_result) = 300
  /\ exists snippet : tavily_result -> string,
      (forall r, String.length (snippet r) <= 200
                 /\ String.prefix (snippet r) (content r) = true)
      /\ outcome (search_with_urls long_world "X" ["l.example"] "auto" 3)
         = inr (("**Targeted Domain Results:**" ++ LF)
                ++ join (map (fun r =>
                                "- " ++ title r ++ " (" ++ url r ++ "): "
                                  ++ snippet r ++ LF)
                             [long_result])).
Proof.
  split; [reflexivity |]. split; [discriminate |]. split; [reflexivity |].
  destruct (snippets_at_most_200 long_world) as (_ & _ & Hurls).
  apply (Hurls "X" ["l.example"] "auto" 3%Z
               {| answer := None; results := [long_result] |}).
  - reflexivity.
  - discriminate.
Defined.

(** C9.  [search_tavily("X", "advanced", 2)] against a backend whose
    reply holds an answer and exactly two results [r1], [r2]: when the
    answer is a non-empty text [t], the returned text is the header, the
    one line ["Quick Summary: t"], then the entry numbered 1 for [r1] and
    the entry numbered 2 for [r2], and nothing else; when the reply has
    no answer (or an empty one), the text is the header and the two
    entries, without a summary line.  When no field of the reply holds a
    line feed, the text has two numbered lines, and one line that begins
    with ["Quick Summary:"] if the answer is a non-empty text and none
    otherwise. *)
Theorem search_tavily_summary_then_two_entries
        (w : World) (a : option string) (r1 r2 : tavily_result) :
  tavily_search w (getenv w "TAVILY_API_KEY") (tavily_request_of "X" "advanced" 2)
  = inr {| answer := a; results := [r1; r2] |} ->
  (forall t, a = Some t -> t <> EmptyString ->
             outcome (search_tavily w "X" "advanced" 2)
             = inr (("**Tavily Data:**" ++ LF)
                    ++ ("Quick Summary: " ++ t ++ LF)
                    ++ ("1. " ++ title r1 ++ " - " ++ url r1 ++ LF
                          ++ "Snippet: " ++ take 200 (content r1) ++ LF)
                    ++ ("2. " ++ title r2 ++ " - " ++ url r2 ++ LF
                          ++ "Snippet: " ++ take 200 (content r2) ++ LF)))
  /\ (a = None \/ a = Some EmptyString ->
      outcome (search_tavily w "X" "advanced" 2)
      = inr (("**Tavily Data:**" ++ LF)
             ++ ("1. " ++ title r1 ++ " - " ++ url r1 ++ LF
                   ++ "Snippet: " ++ take 200 (content r1) ++ LF)
             ++ ("2. " ++ title r2 ++ " - " ++ url r2 ++ LF
                   ++ "Snippet: " ++ take 200 (content r2) ++ LF)))
  /\ (single_line_answer a = true ->
      single_line_result r1 = true -> single_line_result r2 = true ->
      exists out,
        outcome (search_tavily w "X" "advanced" 2) = inr out
        /\ summary_lines out = (if has_answer a then 1 else 0)
        /\ numbered_entries out = 2).
Proof.
  intros B. rewrite (search_tavily_reply w "X" "advanced" 2 _ B).
  cbn [outcome snd results answer].
  split; [| split].
  - intros t -> Ht. cbn [enumerate map fst snd join fold_right].
    rewrite append_empty_r. unfold summary_text.
    destruct t as [|c t]; [now elim Ht |]. reflexivity.
  - cbn [enumerate map fst snd join fold_right]. rewrite append_empty_r.
    intros [-> | ->]; reflexivity.
  - intros Ha H1 H2. eexists. split; [reflexivity |].
    assert (forallb single_line_result [r1; r2] = true) as Hl
      by (simpl; now rewrite H1, H2).
    split.
    + now apply summary_lines_tavily_text.
    + now rewrite numbered_entries_tavily_text.
Qed.

Lemma search_tavily_summary_then_two_entries_witness :
  tavily_search two_results_world (getenv two_results_world "TAVILY_API_KEY")
                (tavily_request_of "X" "advanced" 2)
  = inr {| answer := Some "Forty-two."; results := [result_a; result_b] |}
  /\ "Forty-two." <> EmptyString
  /\ outcome (search_tavily two_results_world "X" "advanced" 2)
     = inr ("**Tavily Data:**" ++ LF
            ++ "Quick Summary: Forty-two." ++ LF
            ++ "1. Alpha - https://a.example/1" ++ LF
            ++ "Snippet: first" ++ LF
            ++ "2. Beta - https://b.example/2" ++ LF
            ++ "Snippet: second" ++ LF)
  /\ summary_lines ("**Tavily Data:**" ++ LF
                    ++ "Quick Summary: Forty-two." ++ LF
                    ++ "1. Alpha - https://a.example/1" ++ LF
                    ++ "Snippet: first" ++ LF
                    ++ "2. Beta - https://b.example/2" ++ LF
                    ++ "Snippet: second" ++ LF) = 1
  /\ numbered_entries ("**Tavily Data:**" ++ LF
                       ++ "Quick Summary: Forty-two." ++ LF
                       ++ "1. Alpha - https://a.example/1" ++ LF
                       ++ "Snippet: first" ++ LF
                       ++ "2. Beta - https://b.example/2" ++ LF
                       ++ "Snippet: second" ++ LF) = 2.
Proof.
  split; [reflexivity |]. split; [discriminate |].
  split; [| split; reflexivity].
  destruct (search_tavily_summary_then_two_entries
              two_results_world (Some "Forty-two.") result_a result_b eq_refl)
    as (Hsome & _ & _).
  apply (Hsome "Forty-two." eq_refl). discriminate.
Defined.

(* ================================================================= *)
(** ** More facts about the string operations *)

Lemma find_none_all (p : ascii -> bool) (c : ascii) (s : string) :
  (forall d, p d = true -> Ascii.eqb d c = false) ->
  all p s = true -> find c s = None.
Proof.
  intros Hp. induction s as [|d s IH]; simpl; [reflexivity |].
  intros H. apply andb_true_iff in H as [Hd Hs].
  now rewrite (Hp d Hd), (IH Hs).
Qed.

Lemma find_append_l (c : ascii) (a b : string) :
  find c a = None ->
  find c (a ++ b) = option_map (Nat.add (String.length a)) (find c b).
Proof.
  induction a as [|d a IH]; simpl.
  - intros _. now destruct (find c b).
  - destruct (Ascii.eqb d c); [discriminate |].
    destruct (find c a); [discriminate |]. intros _.
    rewrite IH by reflexivity. now destruct (find c b).
Qed.

Lemma find_take_none (c : ascii) (n : nat) (s : string) :
  (forall k, find c s = Some k -> n <= k) -> find c (take n s) = None.
Proof.
  revert s. induction n as [|n IH]; intros [|d s] H; simpl; try reflexivity.
  simpl in H. destruct (Ascii.eqb d c).
  - specialize (H 0 eq_refl). lia.
  - rewrite IH; [reflexivity |].
    intros k Hk. rewrite Hk in H. specialize (H (S k) eq_refl). lia.
Qed.

Lemma find_drop_none (c : ascii) (n : nat) (s : string) :
  find c s = None -> find c (drop n s) = None.
Proof.
  revert s. induction n as [|n IH]; intros [|d s]; simpl; try (intros; assumption).
  destruct (Ascii.eqb d c); [discriminate |].
  destruct (find c s) eqn:E; [discriminate |]. intros _. now apply IH.
Qed.

Lemma find_remove_self (c : ascii) (s : string) : find c (remove c s) = None.
Proof.
  induction s as [|d s IH]; simpl; [reflexivity |].
  destruct (Ascii.eqb d c) eqn:E; [exact IH |]. simpl. now rewrite E, IH.
Qed.

Lemma find_remove_other (c d : ascii) (s : string) :
  find c s = None -> find c (remove d s) = None.
Proof.
  induction s as [|x s IH]; simpl; [reflexivity |].
  destruct (Ascii.eqb x c) eqn:E; [discriminate |].
  destruct (find c s); [discriminate |]. intros _.
  destruct (Ascii.eqb x d); [now apply IH |]. simpl. now rewrite E, IH.
Qed.

Lemma find_lstrip_none (p : ascii -> bool) (c : ascii) (s : string) :
  find c s = None -> find c (lstrip p s) = None.
Proof.
  induction s as [|x s IH]; simpl; [reflexivity |].
  destruct (p x); [| now simpl].
  destruct (Ascii.eqb x c); [discriminate |].
  destruct (find c s); [discriminate |]. intros _. now apply IH.
Qed.

Lemma remove_append (c : ascii) (a b : string) :
  remove c (a ++ b) = remove c a ++ remove c b.
Proof.
  induction a as [|d a IH]; simpl; [reflexivity |].
  destruct (Ascii.eqb d c); [exact IH | simpl; now rewrite IH].
Qed.

Lemma take_append_length (a b : string) : take (String.length a) (a ++ b) = a.
Proof. induction a as [|c a IH]; simpl; [now destruct b | now rewrite IH]. Qed.

Lemma drop_append_length (a b : string) : drop (String.length a) (a ++ b) = b.
Proof. induction a as [|c a IH]; simpl; [reflexivity | exact IH]. Qed.

Lemma length_take_min (n : nat) (s : string) :
  String.length (take n s) = Nat.min n (String.length s).
Proof.
  revert s; induction n as [|n IH]; intros [|c s]; simpl; try reflexivity.
  now rewrite IH.
Qed.

Lemma has_find (c : ascii) (s : string) : has c s = false <-> find c s = None.
Proof. unfold has. destruct (find c s); split; congruence. Qed.

(* ================================================================= *)
(** ** [urlsplit] on a scheme, a netloc and a tail *)

Lemma scheme_char_neq (d c : ascii) :
  UrlLib.scheme_char d = true ->
  In c (":"%char :: UrlLib.unsafe_url_bytes) ->
  Ascii.eqb d c = false.
Proof.
  intros Hd HIn. destruct (Ascii.eqb_spec d c) as [-> | _]; [| reflexivity].
  simpl in HIn.
  repeat (destruct HIn as [<-|HIn]; [vm_compute in Hd; discriminate |]).
  contradiction.
Qed.

Lemma netloc_char_neq (d c : ascii) :
  netloc_char d = true ->
  In c (UrlLib.unsafe_url_bytes ++ ["/"; "?"; "#"]%char)%list ->
  Ascii.eqb d c = false.
Proof.
  unfold netloc_char. rewrite !andb_true_iff, !negb_true_iff.
  intros [[_ H1] H2] HIn.
  apply in_app_or in HIn as [HIn|HIn];
    (destruct (Ascii.eqb d c) eqn:E; [|reflexivity]).
  - rewrite <- H1. symmetry. apply existsb_exists. eauto.
  - rewrite <- H2. symmetry. apply existsb_exists. eauto.
Qed.

Lemma find_scheme_none (c : ascii) (s : string) :
  all UrlLib.scheme_char s = true ->
  In c (":"%char :: UrlLib.unsafe_url_bytes) ->
  find c s = None.
Proof.
  intros Hs HIn. apply (find_none_all UrlLib.scheme_char); [| exact Hs].
  intros d Hd. now apply scheme_char_neq.
Qed.

Lemma find_netloc_none (c : ascii) (h : string) :
  all netloc_char h = true ->
  In c (UrlLib.unsafe_url_bytes ++ ["/"; "?"; "#"]%char)%list ->
  find c h = None.
Proof.
  intros Hh HIn. apply (find_none_all netloc_char); [| exact Hh].
  intros d Hd. now apply netloc_char_neq.
Qed.

Lemma isascii_netloc (h : string) : all netloc_char h = true -> isascii h = true.
Proof.
  unfold isascii. induction h as [|d h IH]; simpl; [reflexivity |].
  intros H. apply andb_true_iff in H as [Hd Hh]. rewrite (IH Hh), andb_true_r.
  unfold netloc_char in Hd. now rewrite !andb_true_iff in Hd.
Qed.

Lemma host_is_netloc (h : string) :
  all host_char h = true ->
  all netloc_char h = true /\ has "[" h = false /\ has "]" h = false.
Proof.
  intros Hh. split; [| split].
  - induction h as [|d h IH]; simpl in *; [reflexivity |].
    apply andb_true_iff in Hh as [Hd Hh]. rewrite (IH Hh), andb_true_r.
    unfold host_char in Hd. unfold netloc_char.
    rewrite !andb_true_iff, !negb_true_iff in *.
    destruct Hd as [[Ha Hu] Hx]. repeat split; try assumption.
    simpl in Hx |- *. rewrite !orb_false_iff in *. tauto.
  - apply has_find, find_host_none; [exact Hh | simpl; auto 10].
  - apply has_find, find_host_none; [exact Hh | simpl; auto 10].
Qed.

Lemma alpha_not_c0 (c : ascii) :
  is_ascii_alpha c = true -> UrlLib.c0_control_or_space c = false.
Proof.
  unfold is_ascii_alpha, is_upper, is_lower, in_range, UrlLib.c0_control_or_space.
  rewrite orb_true_iff, !andb_true_iff, !Nat.leb_le, Nat.leb_gt. lia.
Qed.

Lemma tail_ok_cases (t : string) :
  tail_ok t = true ->
  t = EmptyString
  \/ exists d rest, t = String d rest /\ (d = "/" \/ d = "?" \/ d = "#")%char.
Proof.
  destruct t as [|d rest]; [now left |]. simpl. rewrite !orb_true_iff.
  intros H. right. exists d, rest. split; [reflexivity |].
  destruct H as [H|[H|[H|H]]]; try discriminate;
    apply Ascii.eqb_eq in H; auto.
Qed.

(** The tab, carriage return and line feed [urlsplit] removes. *)
Lemma clean_append (a b : string) :
  fold_left (fun u c => remove c u) UrlLib.unsafe_url_bytes (a ++ b)
  = fold_left (fun u c => remove c u) UrlLib.unsafe_url_bytes a
      ++ fold_left (fun u c => remove c u) UrlLib.unsafe_url_bytes b.
Proof. simpl. now rewrite !remove_append. Qed.

Lemma clean_absent (a : string) :
  (forall c, In c UrlLib.unsafe_url_bytes -> find c a = None) ->
  fold_left (fun u c => remove c u) UrlLib.unsafe_url_bytes a = a.
Proof.
  intros H. simpl.
  rewrite (remove_absent _ a) by (apply H; simpl; auto).
  rewrite (remove_absent _ a) by (apply H; simpl; auto).
  rewrite (remove_absent _ a) by (apply H; simpl; auto).
  reflexivity.
Qed.

Lemma clean_tail_ok (t : string) :
  tail_ok t = true ->
  tail_ok (fold_left (fun u c => remove c u) UrlLib.unsafe_url_bytes t) = true.
Proof.
  intros H. destruct (tail_ok_cases t H) as [-> | (d & rest & -> & Hd)]; [reflexivity |].
  destruct Hd as [-> | [-> | ->]]; reflexivity.
Qed.

Lemma splitnetloc_netloc (h t : string) :
  all netloc_char h = true -> tail_ok t = true ->
  UrlLib.splitnetloc ("//" ++ h ++ t) 2 = (h, t).
Proof.
  intros Hh Ht.
  assert (forall c, In c ["/"; "?"; "#"]%char -> find c h = None) as Hnone
    by (intros c Hc; apply find_netloc_none; [exact Hh | simpl in *; tauto]).
  unfold UrlLib.splitnetloc, find_from, slice.
  change (drop 2 ("//" ++ h ++ t)) with (h ++ t).
  assert (fold_left
            (fun delim c =>
               match option_map (Nat.add 2) (find c (h ++ t)) with
               | Some wdelim => Nat.min delim wdelim
               | None => delim
               end)
            ["/"; "?"; "#"]%char (String.length ("//" ++ h ++ t))
          = 2 + String.length h) as ->.
  { simpl fold_left.
    rewrite !find_append_l by (apply Hnone; simpl; auto).
    change (String.length ("//" ++ h ++ t)) with (S (S (String.length (h ++ t)))).
    rewrite length_append.
    destruct (tail_ok_cases t Ht) as [-> | (d & rest & -> & Hd)].
    - simpl. lia.
    - destruct Hd as [-> | [-> | ->]]; simpl;
        destruct (find "/" rest), (find "?" rest), (find "#" rest); simpl; lia. }
  change (2 + String.length h - 2) with (String.length h - 0).
  rewrite Nat.sub_0_r, take_append_length.
  change (drop (2 + String.length h) ("//" ++ h ++ t))
    with (drop (String.length h) (h ++ t)).
  now rewrite drop_append_length.
Qed.

Lemma take_append_eq (n : nat) (a b : string) :
  n = String.length a -> take n (a ++ b) = a.
Proof. intros ->. apply take_append_length. Qed.

Lemma drop_append_sep (n : nat) (a b : string) (x : ascii) :
  n = String.length a + 1 -> drop n (a ++ String x b) = b.
Proof.
  intros ->. rewrite Nat.add_1_r.
  induction a as [|c a IH]; simpl; [reflexivity | exact IH].
Qed.

Lemma urlparse_scheme_netloc (w : World) (s h t : string) :
  scheme_ok s = true -> all netloc_char h = true -> tail_ok t = true ->
  urlparse w (s ++ "://" ++ h ++ t)
  = if (has "[" h && negb (has "]" h)) || (has "]" h && negb (has "[" h))
    then inl (ValueError "Invalid IPv6 URL")
    else if has "[" h && has "]" h
         then match check_bracketed_netloc w h with
              | Some e => inl e
              | None => inr (UrlLib.mkParseResult (lower s) h)
              end
         else inr (UrlLib.mkParseResult (lower s) h).
Proof.
  intros Hs Hh Ht.
  destruct s as [|c s']; [discriminate |].
  simpl in Hs. apply andb_true_iff in Hs as [Hc Hs].
  set (sc := String c s') in *.
  assert (all UrlLib.scheme_char sc = true) as Hsc by exact Hs.
  unfold urlparse, UrlLib.urlparse, UrlLib.urlsplit.
  (* the leading strip *)
  assert (lstrip UrlLib.c0_control_or_space (sc ++ "://" ++ h ++ t)
          = sc ++ "://" ++ h ++ t) as ->.
  { unfold sc. simpl. now rewrite (alpha_not_c0 c Hc). }
  (* the removal of tab, carriage return and line feed *)
  set (t' := fold_left (fun u b => remove b u) UrlLib.unsafe_url_bytes t).
  assert (fold_left (fun u b => remove b u) UrlLib.unsafe_url_bytes
                    (sc ++ "://" ++ h ++ t)
          = sc ++ "://" ++ h ++ t') as ->.
  { rewrite clean_append, (clean_append "://"), (clean_append h).
    rewrite (clean_absent sc)
      by (intros b Hb; apply find_scheme_none; [exact Hsc | now right]).
    rewrite (clean_absent h)
      by (intros b Hb; apply find_netloc_none; [exact Hh | apply in_or_app; now left]).
    reflexivity. }
  assert (tail_ok t' = true) as Ht' by (apply clean_tail_ok; exact Ht).
  clearbody t'.
  (* the scheme *)
  rewrite (find_append_l ":" sc ("://" ++ h ++ t'))
    by (apply find_scheme_none; [exact Hsc | now left]).
  change (find ":" ("://" ++ h ++ t')) with (Some 0).
  cbn [option_map].
  unfold sc at 1. cbn [String.length Nat.add].
  unfold sc at 1. cbn [String.append].
  cbv beta iota zeta.
  fold sc. rewrite Hc.
  change (String c (s' ++ "://" ++ h ++ t'))
    with (sc ++ String ":" ("//" ++ h ++ t')).
  rewrite (take_append_eq _ sc) by (unfold sc; simpl; lia).
  rewrite Hsc. cbn [andb]. cbv beta iota zeta.
  rewrite !(drop_append_sep _ sc) by (unfold sc; simpl; lia).
  change (String "/" (String "/" (h ++ t'))) with ("//" ++ h ++ t').
  change (take 2 ("//" ++ h ++ t') =? "//") with true. cbv iota.
  rewrite (splitnetloc_netloc h t' Hh Ht').
  unfold UrlLib.checknetloc.
  destruct (has "[" h), (has "]" h); cbn [andb orb negb];
    try reflexivity.
  - destruct (check_bracketed_netloc w h); [reflexivity |].
    now rewrite (isascii_netloc h Hh), orb_true_r.
  - now rewrite (isascii_netloc h Hh), orb_true_r.
Qed.

(* ================================================================= *)
(** ** More on the domain normalizer *)

Lemma extract_domain_on_success (w : World) (url : string) (p : UrlLib.ParseResult) :
  urlparse w (if contains "://" url then url else "http://" ++ url) = inr p ->
  extract_domain w url = strip_www (UrlLib.netloc p).
Proof.
  unfold extract_domain. destruct (contains "://" url); simpl negb; cbv iota;
    intros ->; reflexivity.
Qed.

Lemma contains_scheme_sep_slash (s : string) :
  find "/" s = None -> contains "://" s = false.
Proof.
  induction s as [|c s IH]; [reflexivity |].
  intros H. simpl in H.
  destruct (Ascii.eqb c "/") eqn:Ec; [discriminate |].
  destruct (find "/" s) eqn:Ef; [discriminate |].
  change (contains "://" (String c s))
    with (String.prefix "://" (String c s) || contains "://" s).
  rewrite (IH eq_refl), orb_false_r.
  change (String.prefix "://" (String c s))
    with (if ascii_dec ":" c then String.prefix "//" s else false).
  destruct (ascii_dec ":" c); [| reflexivity].
  destruct s as [|d s]; [reflexivity |].
  change (String.prefix "//" (String d s))
    with (if ascii_dec "/" d then String.prefix "/" s else false).
  destruct (ascii_dec "/" d) as [<-|]; [| reflexivity].
  simpl in Ef. discriminate.
Qed.

(** X1.  A URL made of a scheme, ["://"], a host and then nothing or a
    path, query or fragment is normalized to the host without one
    leading ["www."]: the scheme (whatever its letters and case) and
    everything from the first slash, question mark or hash on are
    dropped, and a port or user part of the host is kept. *)
Theorem extract_domain_schemed (w : World) (s h t : string) :
  scheme_ok s = true -> all host_char h = true -> tail_ok t = true ->
  extract_domain w (s ++ "://" ++ h ++ t) = strip_www h.
Proof.
  intros Hs Hh Ht.
  destruct (host_is_netloc h Hh) as (Hn & Hl & Hr).
  rewrite (extract_domain_on_success w _ (UrlLib.mkParseResult (lower s) h));
    [reflexivity |].
  rewrite (contains_append "://" s (h ++ t)).
  rewrite (urlparse_scheme_netloc w s h t Hs Hn Ht), Hl, Hr. reflexivity.
Qed.
Lemma extract_domain_schemed_witness :
  scheme_ok "HTTPS" = true
  /\ all host_char "www.nu.edu.eg:8080" = true
  /\ tail_ok "/a/b?c=d#e" = true
  /\ extract_domain offline_world ("HTTPS" ++ "://" ++ "www.nu.edu.eg:8080" ++ "/a/b?c=d#e")
     = strip_www "www.nu.edu.eg:8080"
  /\ strip_www "www.nu.edu.eg:8080" = "nu.edu.eg:8080".
Proof.
  split; [reflexivity |]. split; [reflexivity |]. split; [reflexivity |].
  split; [| reflexivity].
  apply (extract_domain_schemed offline_world "HTTPS" "www.nu.edu.eg:8080" "/a/b?c=d#e");
    reflexivity.
Defined.


(** X2.  A URL without a scheme (no ["://"] anywhere in it) is
    normalized like the same URL behind any scheme: the default
    ["http://"] is put in front, and the host without one leading
    ["www."] comes back. *)
Theorem extract_domain_bare (w : World) (h t : string) :
  all host_char h = true -> tail_ok t = true ->
  contains "://" (h ++ t) = false ->
  extract_domain w (h ++ t) = strip_www h
  /\ (forall s, scheme_ok s = true ->
                extract_domain w (s ++ "://" ++ h ++ t) = extract_domain w (h ++ t)).
Proof.
  intros Hh Ht Hc.
  destruct (host_is_netloc h Hh) as (Hn & Hl & Hr).
  assert (extract_domain w (h ++ t) = strip_www h) as Hbare.
  { rewrite (extract_domain_on_success w _ (UrlLib.mkParseResult "http" h));
      [reflexivity |].
    rewrite Hc.
    change ("http://" ++ h ++ t) with ("http" ++ "://" ++ h ++ t).
    rewrite (urlparse_scheme_netloc w "http" h t eq_refl Hn Ht), Hl, Hr. reflexivity. }
  split; [exact Hbare |].
  intros s Hs. rewrite Hbare.
  rewrite (extract_domain_on_success w _ (UrlLib.mkParseResult (lower s) h));
    [reflexivity |].
  rewrite (contains_append "://" s (h ++ t)).
  rewrite (urlparse_scheme_netloc w s h t Hs Hn Ht), Hl, Hr. reflexivity.
Qed.
Lemma extract_domain_bare_witness :
  all host_char "www.nu.edu.eg" = true
  /\ tail_ok "/research?x=1" = true
  /\ contains "://" ("www.nu.edu.eg" ++ "/research?x=1") = false
  /\ extract_domain offline_world ("www.nu.edu.eg" ++ "/research?x=1")
     = strip_www "www.nu.edu.eg"
  /\ scheme_ok "ftp" = true
  /\ extract_domain offline_world ("ftp" ++ "://" ++ "www.nu.edu.eg" ++ "/research?x=1")
     = extract_domain offline_world ("www.nu.edu.eg" ++ "/research?x=1").
Proof.
  destruct (extract_domain_bare offline_world "www.nu.edu.eg" "/research?x=1"
              eq_refl eq_refl eq_refl) as [Hbare Hsame].
  split; [reflexivity |]. split; [reflexivity |]. split; [reflexivity |].
  split; [exact Hbare |]. split; [reflexivity |].
  apply (Hsame "ftp"). reflexivity.
Defined.


Lemma extract_domain_host (w : World) (h : string) :
  all host_char h = true -> extract_domain w h = strip_www h.
Proof.
  intros Hh.
  destruct (host_is_netloc h Hh) as (Hn & Hl & Hr).
  rewrite (extract_domain_on_success w _ (UrlLib.mkParseResult "http" h));
    [reflexivity |].
  rewrite contains_scheme_sep_slash
    by (apply find_host_none; [exact Hh | simpl; auto 10]).
  pose proof (urlparse_scheme_netloc w "http" h EmptyString eq_refl Hn eq_refl) as H.
  rewrite append_empty_r in H.
  change ("http://" ++ h) with ("http" ++ "://" ++ h).
  rewrite H, Hl, Hr. reflexivity.
Qed.

(** X3.  A bare host that does not begin with ["www."] is returned as
    it is, so normalizing it a second time changes nothing. *)
Theorem extract_domain_fixed_point (w : World) (h : string) :
  all host_char h = true -> startswith h "www." = false ->
  extract_domain w h = h
  /\ extract_domain w (extract_domain w h) = extract_domain w h.
Proof.
  intros Hh Hw.
  assert (extract_domain w h = h) as E
    by (rewrite (extract_domain_host w h Hh); unfold strip_www; now rewrite Hw).
  split; [exact E | now rewrite !E].
Qed.
Lemma extract_domain_fixed_point_witness :
  all host_char "nu.edu.eg" = true
  /\ startswith "nu.edu.eg" "www." = false
  /\ extract_domain offline_world "nu.edu.eg" = "nu.edu.eg"
  /\ extract_domain offline_world (extract_domain offline_world "nu.edu.eg")
     = extract_domain offline_world "nu.edu.eg".
Proof.
  split; [reflexivity |]. split; [reflexivity |].
  apply (extract_domain_fixed_point offline_world "nu.edu.eg"); reflexivity.
Defined.


(** X4.  When the host part holds an opening bracket without a closing
    one, or the reverse, the parse raises and [extract_domain] returns
    the text it tried to parse: the whole argument, path and all, when
    the argument has a scheme, and the argument behind ["http://"] when
    it has none. *)
Theorem extract_domain_unbalanced_bracket (w : World) (g t : string) :
  all netloc_char g = true -> tail_ok t = true ->
  has "[" g = negb (has "]" g) ->
  (contains "://" (g ++ t) = false ->
   extract_domain w (g ++ t) = "http://" ++ g ++ t)
  /\ (forall s, scheme_ok s = true ->
                extract_domain w (s ++ "://" ++ g ++ t) = s ++ "://" ++ g ++ t).
Proof.
  intros Hg Ht Hx.
  assert (forall s, scheme_ok s = true ->
                    urlparse w (s ++ "://" ++ g ++ t)
                    = inl (ValueError "Invalid IPv6 URL")) as Hfail.
  { intros s Hs. rewrite (urlparse_scheme_netloc w s g t Hs Hg Ht), Hx.
    now destruct (has "]" g). }
  split.
  - intros Hc.
    rewrite (extract_domain_on_failure w _ (ValueError "Invalid IPv6 URL"));
      rewrite Hc; [reflexivity |].
    apply (Hfail "http" eq_refl).
  - intros s Hs.
    rewrite (extract_domain_on_failure w _ (ValueError "Invalid IPv6 URL"));
      rewrite (contains_append "://" s (g ++ t)); [reflexivity |].
    apply (Hfail s Hs).
Qed.
Lemma extract_domain_unbalanced_bracket_witness :
  all netloc_char "[::1" = true
  /\ tail_ok "/status" = true
  /\ has "[" "[::1" = negb (has "]" "[::1")
  /\ contains "://" ("[::1" ++ "/status") = false
  /\ extract_domain offline_world ("[::1" ++ "/status") = "http://" ++ "[::1" ++ "/status"
  /\ scheme_ok "https" = true
  /\ extract_domain offline_world ("https" ++ "://" ++ "[::1" ++ "/status")
     = "https" ++ "://" ++ "[::1" ++ "/status".
Proof.
  destruct (extract_domain_unbalanced_bracket offline_world "[::1" "/status"
              eq_refl eq_refl eq_refl) as [Hbare Hschemed].
  split; [reflexivity |]. split; [reflexivity |]. split; [reflexivity |].
  split; [reflexivity |]. split; [apply Hbare; reflexivity |].
  split; [reflexivity |]. apply (Hschemed "https"). reflexivity.
Defined.


Lemma all_append (p : ascii -> bool) (a b : string) :
  all p (a ++ b) = all p a && all p b.
Proof. induction a as [|c a IH]; simpl; [reflexivity | now rewrite IH, andb_assoc]. Qed.

Lemma take_append_more (n : nat) (a b : string) :
  take (String.length a + n) (a ++ b) = a ++ take n b.
Proof. induction a as [|c a IH]; simpl; [reflexivity | now rewrite IH]. Qed.

Lemma scheme_char_not_c0 (c : ascii) :
  UrlLib.scheme_char c = true -> UrlLib.c0_control_or_space c = false.
Proof.
  unfold UrlLib.scheme_char, UrlLib.c0_control_or_space, is_lower, is_upper,
    is_digit, in_range.
  rewrite !orb_true_iff, !andb_true_iff, !Nat.leb_le, Nat.leb_gt.
  intros [[[[[H|H]|H]|H]|H]|H]; try lia;
    apply Ascii.eqb_eq in H; subst c; vm_compute; lia.
Qed.

(** X5.  An argument that starts with a host name, goes on with a path,
    query or fragment and holds ["://"] only later (in the path or
    query) gets no default scheme and has no netloc: [extract_domain]
    returns the empty text for it. *)
Theorem extract_domain_late_scheme_sep (w : World) (h t : string) :
  h <> EmptyString -> all UrlLib.scheme_char h = true -> tail_ok t = true ->
  contains "://" (h ++ t) = true ->
  extract_domain w (h ++ t) = EmptyString.
Proof.
  intros Hne Hh Ht Hc.
  rewrite (extract_domain_on_success w _ (UrlLib.mkParseResult EmptyString EmptyString));
    [reflexivity |].
  rewrite Hc.
  unfold urlparse, UrlLib.urlparse, UrlLib.urlsplit.
  destruct h as [|c h']; [now elim Hne |].
  set (hc := String c h') in *.
  assert (UrlLib.scheme_char c = true) as Hcc
    by (simpl in Hh; now apply andb_true_iff in Hh as [Hh _]).
  assert (lstrip UrlLib.c0_control_or_space (hc ++ t) = hc ++ t) as ->.
  { unfold hc. simpl. now rewrite (scheme_char_not_c0 c Hcc). }
  set (t' := fold_left (fun u b => remove b u) UrlLib.unsafe_url_bytes t).
  assert (fold_left (fun u b => remove b u) UrlLib.unsafe_url_bytes (hc ++ t)
          = hc ++ t') as ->.
  { rewrite clean_append.
    rewrite (clean_absent hc)
      by (intros b Hb; apply find_scheme_none; [exact Hh | now right]).
    reflexivity. }
  assert (tail_ok t' = true) as Ht' by (apply clean_tail_ok; exact Ht).
  clearbody t'.
  assert ((let '(scheme, url) :=
             match find ":" (hc ++ t'), hc ++ t' with
             | Some (S i'), String c0 _ =>
                 if is_ascii_alpha c0
                    && all UrlLib.scheme_char (take (S i') (hc ++ t'))
                 then (lower (take (S i') (hc ++ t')), drop (S i' + 1) (hc ++ t'))
                 else (EmptyString, hc ++ t')
             | _, _ => (EmptyString, hc ++ t')
             end in (scheme, url)) = (EmptyString, hc ++ t')) as Hscheme.
  { rewrite (find_append_l ":" hc t')
      by (apply find_scheme_none; [exact Hh | now left]).
    destruct (tail_ok_cases t' Ht') as [-> | (d & rest & -> & Hd)]; [reflexivity |].
    assert (UrlLib.scheme_char d = false /\ Ascii.eqb d ":" = false) as [Hd1 Hd2]
      by (destruct Hd as [-> | [-> | ->]]; split; reflexivity).
    simpl find. rewrite Hd2.
    destruct (find ":" rest) as [k|]; [| reflexivity].
    cbn [option_map].
    replace (String.length hc + S k) with (S (String.length h' + S k))
      by (unfold hc; simpl; lia).
    unfold hc at 1. cbn [String.append]. cbv beta iota zeta.
    change (String c (h' ++ String d rest)) with (hc ++ String d rest).
    replace (S (String.length h' + S k)) with (String.length hc + S k)
      by (unfold hc; simpl; lia).
    rewrite take_append_more, all_append. simpl (take (S k) _).
    simpl (all _ (String d _)). rewrite Hd1. cbn [andb].
    now rewrite !andb_false_r. }
  match goal with
  | |- (let '(_, _) := ?m in _) = _ => destruct m as [sch u]
  end.
  injection Hscheme as -> ->. cbv beta iota zeta.
  assert ((take 2 (String c (h' ++ t')) =? "//") = false) as ->.
  { cbn [take String.eqb].
    destruct (Ascii.eqb_spec c "/") as [-> | _]; [discriminate | reflexivity]. }
  reflexivity.
Qed.
Lemma extract_domain_late_scheme_sep_witness :
  "example.com" <> EmptyString
  /\ all UrlLib.scheme_char "example.com" = true
  /\ tail_ok "/login?next=http://a.example" = true
  /\ contains "://" ("example.com" ++ "/login?next=http://a.example") = true
  /\ extract_domain offline_world ("example.com" ++ "/login?next=http://a.example")
     = EmptyString.
Proof.
  split; [discriminate |]. split; [reflexivity |]. split; [reflexivity |].
  split; [reflexivity |].
  apply (extract_domain_late_scheme_sep offline_world
           "example.com" "/login?next=http://a.example");
    [discriminate | reflexivity | reflexivity | reflexivity].
Defined.


Lemma find_clean_none (c : ascii) (s : string) :
  In c UrlLib.unsafe_url_bytes ->
  find c (fold_left (fun u b => remove b u) UrlLib.unsafe_url_bytes s) = None.
Proof.
  simpl. intros [<- | [<- | [<- | []]]].
  - apply find_remove_other, find_remove_other, find_remove_self.
  - apply find_remove_other, find_remove_self.
  - apply find_remove_self.
Qed.

Lemma splitnetloc_fst_clean (u : string) (c : ascii) :
  (In c UrlLib.unsafe_url_bytes -> find c u = None) ->
  In c (UrlLib.unsafe_url_bytes ++ ["/"; "?"; "#"]%char)%list ->
  find c (fst (UrlLib.splitnetloc u 2)) = None.
Proof.
  intros Hu HIn. unfold UrlLib.splitnetloc, find_from, slice. cbn [fst].
  apply find_take_none. intros k Hk.
  apply in_app_or in HIn as [HIn | HIn].
  - rewrite (find_drop_none c 2 u (Hu HIn)) in Hk. discriminate.
  - set (v := drop 2 u) in *. cbn [fold_left].
    destruct (find "/" v) as [k1|] eqn:E1, (find "?" v) as [k2|] eqn:E2,
             (find "#" v) as [k3|] eqn:E3;
      cbn [option_map];
      destruct HIn as [<- | [<- | [<- | []]]];
      try congruence;
      match goal with
      | H1 : find ?x v = Some ?a, H2 : find ?x v = Some ?b |- _ =>
          rewrite H1 in H2; injection H2 as ->
      end; lia.
Qed.

Lemma urlsplit_netloc_clean (chk uni : string -> option exn) (url : string)
      (p : UrlLib.ParseResult) (c : ascii) :
  UrlLib.urlsplit chk uni url = inr p ->
  In c (UrlLib.unsafe_url_bytes ++ ["/"; "?"; "#"]%char)%list ->
  find c (UrlLib.netloc p) = None.
Proof.
  unfold UrlLib.urlsplit.
  set (u2 := fold_left (fun u b => remove b u) UrlLib.unsafe_url_bytes
                       (lstrip UrlLib.c0_control_or_space url)).
  assert (forall b, In b UrlLib.unsafe_url_bytes -> find b u2 = None) as H2
    by (intros b Hb; apply find_clean_none; exact Hb).
  clearbody u2.
  match goal with
  | |- (let '(_, _) := ?m in _) = _ -> _ =>
      assert (forall b, In b UrlLib.unsafe_url_bytes -> find b (snd m) = None) as H3;
      [| destruct m as [sch u3] ]
  end.
  { intros b Hb. destruct (find ":" u2) as [[|i']|]; try (now apply H2).
    destruct u2 as [|c0 r]; [now apply H2 |].
    destruct (is_ascii_alpha c0 && _); cbn [snd]; [| now apply H2].
    apply find_drop_none. now apply H2. }
  cbn [snd] in H3. cbv beta iota zeta.
  intros H HIn.
  destruct (take 2 u3 =? "//").
  - pose proof (splitnetloc_fst_clean u3 c (H3 c) HIn) as Hclean.
    destruct (UrlLib.splitnetloc u3 2) as [nl rest]. cbn [fst] in Hclean.
    destruct (has "[" nl && negb (has "]" nl) || has "]" nl && negb (has "[" nl));
      [discriminate |].
    destruct (has "[" nl && has "]" nl).
    + destruct (chk nl); [discriminate |].
      destruct (UrlLib.checknetloc uni nl); [discriminate |].
      injection H as <-. exact Hclean.
    + destruct (UrlLib.checknetloc uni nl); [discriminate |].
      injection H as <-. exact Hclean.
  - destruct (UrlLib.checknetloc uni EmptyString); [discriminate |].
    injection H as <-. reflexivity.
Qed.

(** X6.  Whenever the parse succeeds, the text [extract_domain] returns
    holds no slash, question mark or hash and no tab, carriage return or
    line feed. *)
Theorem extract_domain_output_clean (w : World) (url : string)
        (p : UrlLib.ParseResult) (c : ascii) :
  urlparse w (if contains "://" url then url else "http://" ++ url) = inr p ->
  In c (UrlLib.unsafe_url_bytes ++ ["/"; "?"; "#"]%char)%list ->
  has c (extract_domain w url) = false.
Proof.
  intros Hp HIn. rewrite (extract_domain_on_success w url p Hp).
  apply has_find. unfold strip_www.
  pose proof (urlsplit_netloc_clean _ _ _ p c Hp HIn) as Hclean.
  destruct (startswith (UrlLib.netloc p) "www."); [| exact Hclean].
  now apply find_drop_none.
Qed.
Lemma extract_domain_output_clean_witness :
  urlparse offline_world
    (if contains "://" "www.nu.edu.eg/a?b#c" then "www.nu.edu.eg/a?b#c"
     else "http://" ++ "www.nu.edu.eg/a?b#c")
  = inr (UrlLib.mkParseResult "http" "www.nu.edu.eg")
  /\ In "/"%char (UrlLib.unsafe_url_bytes ++ ["/"; "?"; "#"]%char)%list
  /\ has "/" (extract_domain offline_world "www.nu.edu.eg/a?b#c") = false.
Proof.
  split; [reflexivity |]. split; [simpl; auto 10 |].
  apply (extract_domain_output_clean offline_world "www.nu.edu.eg/a?b#c"
           (UrlLib.mkParseResult "http" "www.nu.edu.eg") "/"%char);
    [reflexivity | simpl; auto 10].
Defined.


Lemma lstrip_append_all (p : ascii -> bool) (a x : string) :
  all p a = true -> lstrip p (a ++ x) = lstrip p x.
Proof.
  induction a as [|c a IH]; simpl; [reflexivity |].
  intros H. apply andb_true_iff in H as [Hc Ha]. now rewrite Hc, IH.
Qed.

Lemma contains_append_r (sub a b : string) :
  contains sub b = true -> contains sub (a ++ b) = true.
Proof.
  intros H. induction a as [|c a IH]; simpl; [exact H |].
  rewrite IH. apply orb_true_r.
Qed.

Lemma urlsplit_leading_blanks (chk uni : string -> option exn) (ws u : string) :
  all UrlLib.c0_control_or_space ws = true ->
  UrlLib.urlsplit chk uni (ws ++ u) = UrlLib.urlsplit chk uni u.
Proof.
  intros Hws. unfold UrlLib.urlsplit. now rewrite (lstrip_append_all _ ws u Hws).
Qed.

Lemma without_unsafe_cons (d : ascii) (s : string) :
  without_unsafe (String d s)
  = if existsb (Ascii.eqb d) UrlLib.unsafe_url_bytes
    then without_unsafe s
    else String d (without_unsafe s).
Proof.
  unfold without_unsafe. cbn [fold_left UrlLib.unsafe_url_bytes existsb remove].
  destruct (Ascii.eqb d (ascii_of_nat 9)) eqn:E1; cbn [orb]; [reflexivity |].
  cbn [remove].
  destruct (Ascii.eqb d (ascii_of_nat 13)) eqn:E2; cbn [orb]; [reflexivity |].
  cbn [remove].
  destruct (Ascii.eqb d (ascii_of_nat 10)) eqn:E3; cbn [orb]; reflexivity.
Qed.

Lemma blank_kept_is_host_char (d : ascii) :
  UrlLib.c0_control_or_space d = true ->
  existsb (Ascii.eqb d) UrlLib.unsafe_url_bytes = false ->
  host_char d = true.
Proof.
  intros Hd Hu. unfold host_char. rewrite Hu. cbn [negb andb].
  assert (code d <= 32) as Hcode
    by (unfold UrlLib.c0_control_or_space in Hd; now apply Nat.leb_le in Hd).
  rewrite andb_true_r. apply andb_true_iff. split.
  - unfold isascii_char. apply Nat.ltb_lt. lia.
  - apply negb_true_iff.
    destruct (existsb (Ascii.eqb d) ["/"; "?"; "#"; "["; "]"]%char) eqn:E; [| reflexivity].
    apply existsb_exists in E as (x & Hx & Hdx).
    apply Ascii.eqb_eq in Hdx. subst x.
    simpl in Hx.
    repeat (destruct Hx as [<- | Hx]; [vm_compute in Hcode; lia |]).
    contradiction.
Qed.

Lemma without_unsafe_blanks (ws : string) :
  all UrlLib.c0_control_or_space ws = true ->
  all UrlLib.c0_control_or_space (without_unsafe ws) = true
  /\ all host_char (without_unsafe ws) = true.
Proof.
  induction ws as [|d ws IH]; [now split |].
  cbn [all]. intros H. apply andb_true_iff in H as [Hd Hws].
  destruct (IH Hws) as [IH1 IH2].
  rewrite without_unsafe_cons.
  destruct (existsb (Ascii.eqb d) UrlLib.unsafe_url_bytes) eqn:E; [now split |].
  cbn [all]. rewrite Hd, IH1, IH2, (blank_kept_is_host_char d Hd E). now split.
Qed.

Lemma blank_is_not_slash (d : ascii) :
  UrlLib.c0_control_or_space d = true -> Ascii.eqb d "/" = false.
Proof.
  intros Hd. destruct (Ascii.eqb_spec d "/") as [-> | _]; [discriminate | reflexivity].
Qed.

(** With the default scheme in front, blanks and a host parse like the
    blanks without tab, carriage return and line feed, and the host. *)
Lemma urlparse_http_blanks (w : World) (ws h : string) :
  all host_char h = true ->
  urlparse w ("http://" ++ ws ++ h) = urlparse w ("http://" ++ without_unsafe ws ++ h).
Proof.
  intros Hh. unfold urlparse, UrlLib.urlparse, UrlLib.urlsplit.
  change (lstrip UrlLib.c0_control_or_space ("http://" ++ ws ++ h))
    with ("http://" ++ ws ++ h).
  change (lstrip UrlLib.c0_control_or_space ("http://" ++ without_unsafe ws ++ h))
    with ("http://" ++ without_unsafe ws ++ h).
  assert (forall x,
             fold_left (fun u b => remove b u) UrlLib.unsafe_url_bytes ("http://" ++ x ++ h)
             = "http://" ++ without_unsafe x ++ h) as Hclean.
  { intros x. rewrite (clean_append "http://"), (clean_append x).
    rewrite (clean_absent h)
      by (intros b Hb; apply find_host_none; [exact Hh | apply in_or_app; now left]).
    reflexivity. }
  rewrite !Hclean.
  assert (without_unsafe (without_unsafe ws) = without_unsafe ws) as ->
    by (apply clean_absent; intros b Hb; now apply find_clean_none).
  reflexivity.
Qed.

(** X12.  Blanks and control characters (code points 0 to 32) in front
    of a URL that holds ["://"] and parses are ignored.  In front of a
    bare host, the tabs, carriage returns and line feeds among them are
    removed and the others stay in the result: if any stays, a
    following ["www."] is not taken off; if none stays, the host is
    normalized as if nothing stood in front of it. *)
Theorem extract_domain_leading_blanks (w : World) (ws : string) :
  all UrlLib.c0_control_or_space ws = true ->
  (forall url p,
      contains "://" url = true -> urlparse w url = inr p ->
      extract_domain w (ws ++ url) = extract_domain w url)
  /\ (forall h,
         all host_char h = true ->
         extract_domain w (ws ++ h) = strip_www (without_unsafe ws ++ h))
  /\ (forall h,
         all host_char h = true -> without_unsafe ws <> EmptyString ->
         extract_domain w (ws ++ "www." ++ h) = without_unsafe ws ++ "www." ++ h)
  /\ (forall h,
         all host_char h = true -> without_unsafe ws = EmptyString ->
         extract_domain w (ws ++ "www." ++ h) = h).
Proof.
  intros Hws.
  destruct (without_unsafe_blanks ws Hws) as [Hc0 Hhost].
  assert (forall h, all host_char h = true ->
                    extract_domain w (ws ++ h) = strip_www (without_unsafe ws ++ h))
    as Hbare.
  { intros h Hh.
    assert (all host_char (without_unsafe ws ++ h) = true) as Hall
      by (now rewrite all_append, Hhost, Hh).
    destruct (host_is_netloc _ Hall) as (Hn & Hl & Hr).
    rewrite (extract_domain_on_success w _
               (UrlLib.mkParseResult "http" (without_unsafe ws ++ h)));
      [reflexivity |].
    rewrite contains_scheme_sep_slash.
    - rewrite (urlparse_http_blanks w ws h Hh).
      pose proof (urlparse_scheme_netloc w "http" (without_unsafe ws ++ h) EmptyString
                    eq_refl Hn eq_refl) as H.
      rewrite append_empty_r in H.
      change ("http://" ++ without_unsafe ws ++ h)
        with ("http" ++ "://" ++ (without_unsafe ws ++ h)).
      rewrite H, Hl, Hr. reflexivity.
    - apply find_append_none.
      + apply (find_none_all UrlLib.c0_control_or_space); [| exact Hws].
        intros d Hd. now apply blank_is_not_slash.
      + apply find_host_none; [exact Hh | simpl; auto 10]. }
  split; [| split; [exact Hbare | split]].
  - intros url p Hc Hp.
    rewrite (extract_domain_on_success w url p) by now rewrite Hc.
    apply extract_domain_on_success.
    rewrite (contains_append_r "://" ws url Hc).
    unfold urlparse, UrlLib.urlparse in *. now rewrite urlsplit_leading_blanks.
  - intros h Hh Hne. rewrite (Hbare ("www." ++ h)) by exact Hh.
    unfold strip_www, startswith.
    destruct (without_unsafe ws) as [|c cw]; [now elim Hne |].
    change (String.prefix "www." (String c cw ++ "www." ++ h))
      with (if ascii_dec "w" c
            then String.prefix "ww." (cw ++ "www." ++ h) else false).
    destruct (ascii_dec "w" c) as [<- | _]; [| reflexivity].
    simpl in Hc0. discriminate.
  - intros h Hh He. rewrite (Hbare ("www." ++ h)) by exact Hh.
    rewrite He. unfold strip_www, startswith.
    change (EmptyString ++ "www." ++ h) with ("www." ++ h).
    now rewrite (prefix_append "www." h).
Qed.

Lemma extract_domain_leading_blanks_witness :
  all UrlLib.c0_control_or_space "  " = true
  /\ contains "://" "https://www.nu.edu.eg/page" = true
  /\ urlparse offline_world "https://www.nu.edu.eg/page"
     = inr (UrlLib.mkParseResult "https" "www.nu.edu.eg")
  /\ extract_domain offline_world ("  " ++ "https://www.nu.edu.eg/page")
     = extract_domain offline_world "https://www.nu.edu.eg/page"
  /\ all host_char "nu.edu.eg" = true
  /\ without_unsafe "  " <> EmptyString
  /\ extract_domain offline_world ("  " ++ "www." ++ "nu.edu.eg")
     = without_unsafe "  " ++ "www." ++ "nu.edu.eg"
  /\ all UrlLib.c0_control_or_space LF = true
  /\ without_unsafe LF = EmptyString
  /\ extract_domain offline_world (LF ++ "www." ++ "nu.edu.eg") = "nu.edu.eg".
Proof.
  destruct (extract_domain_leading_blanks offline_world "  " eq_refl)
    as (Hschemed & _ & Hstays & _).
  destruct (extract_domain_leading_blanks offline_world LF eq_refl)
    as (_ & _ & _ & Hgone).
  split; [reflexivity |]. split; [reflexivity |]. split; [reflexivity |].
  split.
  { apply (Hschemed "https://www.nu.edu.eg/page"
                    (UrlLib.mkParseResult "https" "www.nu.edu.eg"));
      reflexivity. }
  split; [reflexivity |]. split; [discriminate |].
  split; [apply (Hstays "nu.edu.eg"); [reflexivity | discriminate] |].
  split; [reflexivity |]. split; [reflexivity |].
  apply (Hgone "nu.edu.eg"); reflexivity.
Defined.

(* ================================================================= *)
(** ** More on the adapters *)

(** The events of an adapter call, in order. *)
Lemma invoke_trace (w : World) (c : tool_call) :
  trace (invoke w c)
  = LogInfo (info_line w c)
      :: expected_call w c
      :: match backend_reply w c with
         | inl e =>
             if is_Exception e
             then [LogError (error_line_prefix c ++ str_exn e)]
             else []
         | inr _ => []
         end.
Proof.
  destruct c as [q d n | q n a | q us t n]; unfold backend_reply; simpl invoke.
  - destruct (tavily_search _ _ _) as [e|resp] eqn:B.
    + rewrite (search_tavily_raise _ _ _ _ _ B). now destruct (is_Exception e).
    + now rewrite (search_tavily_reply _ _ _ _ _ B).
  - destruct (exa_search_and_contents _ _ _) as [e|resp] eqn:B.
    + rewrite (search_exa_raise _ _ _ _ _ B). now destruct (is_Exception e).
    + now rewrite (search_exa_reply _ _ _ _ _ B).
  - destruct (tavily_search _ _ _) as [e|resp] eqn:B.
    + rewrite (search_with_urls_raise _ _ _ t _ _ B). now destruct (is_Exception e).
    + now rewrite (search_with_urls_reply _ _ _ t _ _ B).
Qed.

Lemma invoke_backend_calls (w : World) (c : tool_call) :
  backend_calls (trace (invoke w c)) = [expected_call w c].
Proof.
  rewrite invoke_trace. unfold backend_calls. cbn [filter is_backend_call].
  assert (is_backend_call (expected_call w c) = true) as ->
    by (destruct c; reflexivity).
  destruct (backend_reply w c) as [e|k]; [| reflexivity].
  destruct (is_Exception e); reflexivity.
Qed.

(** X7.  An adapter call logs its info line before anything else.  It
    makes at most one backend call, and a backend call it makes is its
    own: its own client, its own API key, the request built from its
    arguments; nothing is retried and the other backend is never
    called.  When the backend call raises an instance of [Exception],
    the last event is the error line that carries [str(e)], and it is
    the only error line; when it raises anything else, the exception
    reaches the caller and no error line is logged. *)
Theorem adapter_trace_shape (w : World) (c : tool_call) :
  (exists rest, trace (invoke w c) = LogInfo (info_line w c) :: rest)
  /\ List.length (backend_calls (trace (invoke w c))) <= 1
  /\ (forall ev, In ev (backend_calls (trace (invoke w c))) -> ev = expected_call w c)
  /\ (forall e, backend_reply w c = inl e -> is_Exception e = true ->
                exists before,
                  trace (invoke w c)
                  = (before ++ [LogError (error_line_prefix c ++ str_exn e)])%list
                  /\ forall m, ~ In (LogError m) before)
  /\ (forall e, backend_reply w c = inl e -> is_Exception e = false ->
                outcome (invoke w c) = inl e
                /\ forall m, ~ In (LogError m) (trace (invoke w c))).
Proof.
  assert (forall m, ~ In (LogError m) [LogInfo (info_line w c); expected_call w c])
    as Hnolog.
  { intros m [H | [H | []]]; [discriminate |]. destruct c; discriminate. }
  split; [rewrite invoke_trace; eauto |].
  split; [rewrite invoke_backend_calls; simpl; lia |].
  split; [rewrite invoke_backend_calls; intros ev [<- | []]; reflexivity |].
  split.
  - intros e B He. rewrite invoke_trace, B, He.
    exists [LogInfo (info_line w c); expected_call w c]. split; [reflexivity | exact Hnolog].
  - intros e B He. split.
    + pose proof (adapters_escape w c e B He) as H. exact H.
    + rewrite invoke_trace, B, He. exact Hnolog.
Qed.

Lemma adapter_trace_shape_witness :
  backend_reply offline_world (Call_search_exa "X" 3 true)
  = inl (Exception "ValueError" "API key must be provided")
  /\ is_Exception (Exception "ValueError" "API key must be provided") = true
  /\ (exists before,
         trace (invoke offline_world (Call_search_exa "X" 3 true))
         = (before ++ [LogError ("Exa Error: " ++ "API key must be provided")])%list
         /\ forall m, ~ In (LogError m) before)
  /\ backend_reply interrupted_world (Call_search_exa "X" 3 true)
     = inl (BaseException "KeyboardInterrupt" "")
  /\ is_Exception (BaseException "KeyboardInterrupt" "") = false
  /\ outcome (invoke interrupted_world (Call_search_exa "X" 3 true))
     = inl (BaseException "KeyboardInterrupt" "")
  /\ (forall m, ~ In (LogError m)
                    (trace (invoke interrupted_world (Call_search_exa "X" 3 true)))).
Proof.
  destruct (adapter_trace_shape offline_world (Call_search_exa "X" 3 true))
    as (_ & _ & _ & Hcaught & _).
  destruct (adapter_trace_shape interrupted_world (Call_search_exa "X" 3 true))
    as (_ & _ & _ & _ & Hescaped).
  split; [reflexivity |]. split; [reflexivity |].
  split; [apply (Hcaught (Exception "ValueError" "API key must be provided"));
          reflexivity |].
  split; [reflexivity |]. split; [reflexivity |].
  apply (Hescaped (BaseException "KeyboardInterrupt" "")); reflexivity.
Defined.

(** X8.  When an adapter returns a text: the text begins with ["**"]
    only if the backend's reply held at least one result; it begins
    with ["Notice:"] exactly when the reply held no result; and it
    begins with ["Error:"] whenever the backend call raised. *)
Theorem adapter_text_tells_outcome (w : World) (c : tool_call) (out : string) :
  outcome (invoke w c) = inr out ->
  (startswith out "**" = true -> exists k, backend_reply w c = inr (S k))
  /\ (startswith out "Notice:" = true <-> backend_reply w c = inr 0)
  /\ ((exists e, backend_reply w c = inl e) -> startswith out "Error:" = true).
Proof.
  destruct c as [q d n | q n a | q us t n]; unfold backend_reply; simpl invoke.
  - destruct (tavily_search _ _ _) as [e|resp] eqn:B.
    + rewrite (search_tavily_raise _ _ _ _ _ B).
      destruct (is_Exception e); [| discriminate].
      intros H; injection H as <-.
      split; [discriminate |]. split; [split; discriminate | reflexivity].
    + rewrite (search_tavily_reply _ _ _ _ _ B).
      intros H; injection H as <-.
      destruct (results resp) as [|r rs]; cbn [List.length].
      * split; [discriminate |]. split; [split; reflexivity |].
        intros [e He]; discriminate.
      * split; [eauto |]. split; [split; discriminate |].
        intros [e He]; discriminate.
  - destruct (exa_search_and_contents _ _ _) as [e|resp] eqn:B.
    + rewrite (search_exa_raise _ _ _ _ _ B).
      destruct (is_Exception e); [| discriminate].
      intros H; injection H as <-.
      split; [discriminate |]. split; [split; discriminate | reflexivity].
    + rewrite (search_exa_reply _ _ _ _ _ B).
      intros H; injection H as <-.
      destruct (exa_results resp) as [|r rs]; cbn [List.length].
      * split; [discriminate |]. split; [split; reflexivity |].
        intros [e He]; discriminate.
      * split; [eauto |]. split; [split; discriminate |].
        intros [e He]; discriminate.
  - destruct (tavily_search _ _ _) as [e|resp] eqn:B.
    + rewrite (search_with_urls_raise _ _ _ t _ _ B).
      destruct (is_Exception e); [| discriminate].
      intros H; injection H as <-.
      split; [discriminate |]. split; [split; discriminate | reflexivity].
    + rewrite (search_with_urls_reply _ _ _ t _ _ B).
      intros H; injection H as <-.
      destruct (results resp) as [|r rs]; cbn [List.length].
      * split; [discriminate |]. split; [split; reflexivity |].
        intros [e He]; discriminate.
      * split; [eauto |]. split; [split; discriminate |].
        intros [e He]; discriminate.
Qed.

Lemma adapter_text_tells_outcome_witness :
  outcome (invoke empty_world (Call_search_tavily "X" "basic" 3))
  = inr "Notice: No Tavily results for 'X'."
  /\ (startswith "Notice: No Tavily results for 'X'." "**" = true ->
      exists k, backend_reply empty_world (Call_search_tavily "X" "basic" 3) = inr (S k))
  /\ (startswith "Notice: No Tavily results for 'X'." "Notice:" = true
      <-> backend_reply empty_world (Call_search_tavily "X" "basic" 3) = inr 0)
  /\ ((exists e, backend_reply empty_world (Call_search_tavily "X" "basic" 3) = inl e) ->
      startswith "Notice: No Tavily results for 'X'." "Error:" = true).
Proof.
  split; [reflexivity |].
  apply (adapter_text_tells_outcome empty_world (Call_search_tavily "X" "basic" 3)
           "Notice: No Tavily results for 'X'.").
  reflexivity.
Defined.

Lemma enumerate_in_snd {A} (l : list A) (k : nat) (ir : nat * A) :
  In ir (enumerate l k) -> In (snd ir) l.
Proof.
  intros H. rewrite <- (enumerate_snd l k). now apply in_map.
Qed.

Lemma length_join (l : list string) :
  String.length (join l) = total (map String.length l).
Proof.
  induction l as [|x l IH]; simpl; [reflexivity |].
  now rewrite length_append, IH.
Qed.

Lemma urls_entry_length (r : tavily_result) :
  String.length (urls_entry r)
  = String.length (title r) + String.length (url r)
    + Nat.min 200 (String.length (content r)) + 8.
Proof.
  unfold urls_entry. rewrite !length_append, length_take_min. simpl. lia.
Qed.

Lemma total_le (f g : tavily_result -> nat) (l : list tavily_result) :
  (forall r, f r <= g r) -> total (map f l) <= total (map g l).
Proof.
  intros H. induction l as [|r l IH]; simpl; [lia |]. specialize (H r). lia.
Qed.


(** X9.  When every result of the reply has a content (or text) of at
    most 200 characters, each adapter shows every content in full; the
    Exa adapter still puts ["..."] after it. *)
Theorem short_content_shown_whole (w : World) :
  (forall q d n resp,
      tavily_search w (getenv w "TAVILY_API_KEY") (tavily_request_of q d n) = inr resp ->
      results resp <> [] ->
      (forall r, In r (results resp) -> String.length (content r) <= 200) ->
      outcome (search_tavily w q d n)
      = inr (("**Tavily Data:**" ++ LF) ++ summary_text (answer resp)
             ++ join (map (fun ir =>
                             of_nat (fst ir) ++ ". " ++ title (snd ir) ++ " - "
                               ++ url (snd ir) ++ LF
                               ++ "Snippet: " ++ content (snd ir) ++ LF)
                          (enumerate (results resp) 1))))
  /\ (forall q n a resp,
         exa_search_and_contents w (getenv w "EXA_API_KEY") (exa_request_of q n a)
         = inr resp ->
         exa_results resp <> [] ->
         (forall r, In r (exa_results resp) -> String.length (exa_text r) <= 200) ->
         outcome (search_exa w q n a)
         = inr (("**Exa Neural Data:**" ++ LF)
                ++ join (map (fun ir =>
                                of_nat (fst ir) ++ ". " ++ exa_title (snd ir) ++ " - "
                                  ++ exa_url (snd ir) ++ LF
                                  ++ "Text: " ++ exa_text (snd ir) ++ "..." ++ LF)
                             (enumerate (exa_results resp) 1))))
  /\ (forall q us t n resp,
         tavily_search w (getenv w "TAVILY_API_KEY")
                       (urls_request_of q (map (extract_domain w) us) n) = inr resp ->
         results resp <> [] ->
         (forall r, In r (results resp) -> String.length (content r) <= 200) ->
         outcome (search_with_urls w q us t n)
         = inr (("**Targeted Domain Results:**" ++ LF)
                ++ join (map (fun r =>
                                "- " ++ title r ++ " (" ++ url r ++ "): "
                                  ++ content r ++ LF)
                             (results resp)))).
Proof.
  split; [| split].
  - intros q d n resp B Hne Hshort.
    rewrite (search_tavily_reply w q d n resp B). cbn [outcome snd].
    destruct (results resp) as [|r0 rs] eqn:E; [now elim Hne |].
    match goal with
    | |- inr (_ ++ _ ++ join (map ?f ?l)) = inr (_ ++ _ ++ join (map ?g _)) =>
        rewrite (map_ext_in f g l); [reflexivity |]
    end.
    intros ir Hir. unfold tavily_entry. rewrite take_short; [reflexivity |].
    apply Hshort. now apply (enumerate_in_snd _ 1).
  - intros q n a resp B Hne Hshort.
    rewrite (search_exa_reply w q n a resp B). cbn [outcome snd].
    destruct (exa_results resp) as [|r0 rs] eqn:E; [now elim Hne |].
    match goal with
    | |- inr (_ ++ join (map ?f ?l)) = inr (_ ++ join (map ?g _)) =>
        rewrite (map_ext_in f g l); [reflexivity |]
    end.
    intros ir Hir. unfold exa_entry. rewrite take_short; [reflexivity |].
    apply Hshort. now apply (enumerate_in_snd _ 1).
  - intros q us t n resp B Hne Hshort.
    rewrite (search_with_urls_reply w q us t n resp B). cbn [outcome snd].
    destruct (results resp) as [|r0 rs] eqn:E; [now elim Hne |].
    match goal with
    | |- inr (_ ++ join (map ?f ?l)) = inr (_ ++ join (map ?g _)) =>
        rewrite (map_ext_in f g l); [reflexivity |]
    end.
    intros r Hr. unfold urls_entry. rewrite take_short; [reflexivity |].
    now apply Hshort.
Qed.
Lemma short_content_shown_whole_witness :
  exa_search_and_contents two_results_world (getenv two_results_world "EXA_API_KEY")
                          (exa_request_of "X" 3 true)
  = inr {| exa_results := [exa_result_a] |}
  /\ [exa_result_a] <> []
  /\ (forall r, In r [exa_result_a] -> String.length (exa_text r) <= 200)
  /\ outcome (search_exa two_results_world "X" 3 true)
     = inr ("**Exa Neural Data:**" ++ LF
            ++ "1. Alpha - https://a.example/1" ++ LF
            ++ "Text: first..." ++ LF).
Proof.
  assert (forall r, In r [exa_result_a] -> String.length (exa_text r) <= 200) as Hshort
    by (intros r [<- | []]; simpl; lia).
  split; [reflexivity |]. split; [discriminate |]. split; [exact Hshort |].
  destruct (short_content_shown_whole two_results_world) as (_ & Hexa & _).
  apply (Hexa "X" 3%Z true {| exa_results := [exa_result_a] |});
    [reflexivity | discriminate | exact Hshort].
Defined.


(** X10.  The length of the text [search_with_urls] returns for a reply
    with results is 29 for the header plus, for each result, the lengths
    of its title and URL, 8 characters of fixed text and the smaller of
    200 and the length of its content; so it is at most 29 plus, per
    result, title, URL and 208. *)
Theorem search_with_urls_text_length
        (w : World) (q : string) (us : list string) (t : string) (n : Z)
        (resp : tavily_response) :
  tavily_search w (getenv w "TAVILY_API_KEY")
                (urls_request_of q (map (extract_domain w) us) n) = inr resp ->
  results resp <> [] ->
  exists out,
    outcome (search_with_urls w q us t n) = inr out
    /\ String.length out
       = 29 + total (map (fun r => String.length (title r) + String.length (url r)
                                   + Nat.min 200 (String.length (content r)) + 8)
                         (results resp))
    /\ String.length out
       <= 29 + total (map (fun r => String.length (title r) + String.length (url r)
                                    + 208)
                          (results resp)).
Proof.
  intros B Hne. rewrite (search_with_urls_reply w q us t n resp B).
  destruct (results resp) as [|r0 rs] eqn:E; [now elim Hne |].
  eexists. split; [reflexivity |].
  assert (String.length
            (("**Targeted Domain Results:**" ++ LF) ++ join (map urls_entry (r0 :: rs)))
          = 29 + total (map (fun r => String.length (title r) + String.length (url r)
                                      + Nat.min 200 (String.length (content r)) + 8)
                            (r0 :: rs))) as Hlen.
  { rewrite length_append, length_join, map_map.
    change (String.length ("**Targeted Domain Results:**" ++ LF)) with 29.
    f_equal. f_equal. apply map_ext. intros r. apply urls_entry_length. }
  split; [exact Hlen |]. rewrite Hlen.
  apply Nat.add_le_mono_l, total_le. intros r. lia.
Qed.
Lemma search_with_urls_text_length_witness :
  tavily_search long_world (getenv long_world "TAVILY_API_KEY")
                (urls_request_of "X" (map (extract_domain long_world) ["l.example"]) 3)
  = inr {| answer := None; results := [long_result] |}
  /\ [long_result] <> []
  /\ exists out,
      outcome (search_with_urls long_world "X" ["l.example"] "auto" 3) = inr out
      /\ String.length out
         = 29 + total (map (fun r => String.length (title r) + String.length (url r)
                                     + Nat.min 200 (String.length (content r)) + 8)
                           [long_result])
      /\ String.length out
         <= 29 + total (map (fun r => String.length (title r) + String.length (url r)
                                      + 208)
                            [long_result]).
Proof.
  split; [reflexivity |]. split; [discriminate |].
  apply (search_with_urls_text_length long_world "X" ["l.example"] "auto" 3%Z
           {| answer := None; results := [long_result] |});
    [reflexivity | discriminate].
Defined.


(** X11.  Calling [search_with_urls] with the already normalized
    domains instead of the raw URLs sends the same backend request and
    returns the same text, provided each normalized domain is a host
    that does not begin with ["www."]. *)
Theorem search_with_urls_normalized_again
        (w : World) (q : string) (us : list string) (t : string) (n : Z) :
  (forall u, In u us ->
             all host_char (extract_domain w u) = true
             /\ startswith (extract_domain w u) "www." = false) ->
  backend_calls (trace (search_with_urls w q (map (extract_domain w) us) t n))
  = backend_calls (trace (search_with_urls w q us t n))
  /\ outcome (search_with_urls w q (map (extract_domain w) us) t n)
     = outcome (search_with_urls w q us t n).
Proof.
  intros Hus.
  assert (map (extract_domain w) (map (extract_domain w) us)
          = map (extract_domain w) us) as Hmap.
  { rewrite map_map. apply map_ext_in. intros u Hu.
    destruct (Hus u Hu) as [Hh Hw].
    rewrite (extract_domain_host w _ Hh). unfold strip_www. now rewrite Hw. }
  split.
  - now rewrite !search_with_urls_trace, Hmap.
  - destruct (tavily_search w (getenv w "TAVILY_API_KEY")
                (urls_request_of q (map (extract_domain w) us) n)) as [e|resp] eqn:B.
    + rewrite (search_with_urls_raise w q us t n e B).
      rewrite <- Hmap in B.
      rewrite (search_with_urls_raise w q _ t n e B).
      now destruct (is_Exception e).
    + rewrite (search_with_urls_reply w q us t n resp B).
      pose proof B as B'. rewrite <- Hmap in B'.
      rewrite (search_with_urls_reply w q _ t n resp B'). now rewrite Hmap.
Qed.
Lemma search_with_urls_normalized_again_witness :
  (forall u, In u ["https://www.nu.edu.eg/page"; "example.com"] ->
             all host_char (extract_domain two_results_world u) = true
             /\ startswith (extract_domain two_results_world u) "www." = false)
  /\ backend_calls
       (trace (search_with_urls two_results_world "X"
                 (map (extract_domain two_results_world)
                      ["https://www.nu.edu.eg/page"; "example.com"]) "auto" 3))
     = backend_calls
         (trace (search_with_urls two_results_world "X"
                   ["https://www.nu.edu.eg/page"; "example.com"] "auto" 3))
  /\ outcome
       (search_with_urls two_results_world "X"
          (map (extract_domain two_results_world)
               ["https://www.nu.edu.eg/page"; "example.com"]) "auto" 3)
     = outcome
         (search_with_urls two_results_world "X"
            ["https://www.nu.edu.eg/page"; "example.com"] "auto" 3).
Proof.
  assert (forall u, In u ["https://www.nu.edu.eg/page"; "example.com"] ->
                    all host_char (extract_domain two_results_world u) = true
                    /\ startswith (extract_domain two_results_world u) "www." = false)
    as Hus by (intros u [<- | [<- | []]]; split; reflexivity).
  split; [exact Hus |].
  apply (search_with_urls_normalized_again two_results_world "X"
           ["https://www.nu.edu.eg/page"; "example.com"] "auto" 3%Z Hus).
Defined.

